(** * vin_processor_batches: batch orchestrator, rollover writer, cleanup pass

    A shallow embedding of [vin_processor_batches.py] and the proofs of the
    properties stated for it.

    Conventions of the embedding.
    - Text is a [string] of characters with code points 0..255; the content
      of a file is its decoded text.  Files are encoded in UTF-8, so
      [os.path.getsize] counts one byte for a code point below 128 and two
      bytes for the others.
    - The platform is POSIX: [os.linesep] is a line feed and text-mode
      output is written as given; text-mode input uses universal newlines.
    - The file system is a finite map from paths to contents.  The outcome
      of each fallible system call (opening, writing, querying a size, the
      HTTP exchange) is supplied from outside as an oracle, so that the
      [try]/[except] paths of the source are real paths of the model.
    - [print] appends a structured report to the standard-output trace; one
      constructor per [print] statement of the source. *)

From stdpp Require Import gmap strings list pretty.
From Stdlib Require Import ZArith Ascii.

Open Scope Z_scope.

(** ** Python string primitives *)

Module Py.

Definition LF : ascii := "010"%char.
Definition CR : ascii := "013"%char.

(** [str.isspace] of a single character, on code points 0..255:
    TAB, LF, VT, FF, CR, FS, GS, RS, US, SPACE, NEL, NBSP. *)
Definition isspace (c : ascii) : bool :=
  let n := N_of_ascii c in
  ((9 <=? n) && (n <=? 13) || (28 <=? n) && (n <=? 31)
   || (n =? 32) || (n =? 133) || (n =? 160))%N.

(** Line boundaries of [str.splitlines], on code points 0..255:
    LF, VT, FF, CR, FS, GS, RS, NEL (CR LF counts as one). *)
Definition is_linebreak (c : ascii) : bool :=
  let n := N_of_ascii c in
  ((10 <=? n) && (n <=? 13) || (28 <=? n) && (n <=? 30) || (n =? 133))%N.

(** Truth value of a [str]: non-empty. *)
Definition nonempty (s : string) : bool :=
  match s with EmptyString => false | String _ _ => true end.

(** Truth value of an [Optional[str]]: neither [None] nor empty. *)
Definition truthy (o : option string) : bool :=
  match o with Some s => nonempty s | None => false end.

Fixpoint lstrip (s : string) : string :=
  match s with
  | EmptyString => EmptyString
  | String c s' => if isspace c then lstrip s' else s
  end.

Fixpoint rstrip (s : string) : string :=
  match s with
  | EmptyString => EmptyString
  | String c s' =>
      match rstrip s' with
      | EmptyString => if isspace c then EmptyString else String c EmptyString
      | r => String c r
      end
  end.

(** [s.strip()] *)
Definition strip (s : string) : string := rstrip (lstrip s).

(** [s.rstrip('\r\n')]: drops trailing characters that are CR or LF. *)
Definition is_crlf (c : ascii) : bool :=
  bool_decide (c = CR) || bool_decide (c = LF).

Fixpoint rstrip_crlf (s : string) : string :=
  match s with
  | EmptyString => EmptyString
  | String c s' =>
      match rstrip_crlf s' with
      | EmptyString => if is_crlf c then EmptyString else String c EmptyString
      | r => String c r
      end
  end.

(** [s.splitlines()]: the lines without their terminators; no empty
    last line after a final terminator; [[]] for the empty string. *)
Fixpoint splitlines (s : string) : list string :=
  match s with
  | EmptyString => []
  | String c s' =>
      if is_linebreak c then
        match s' with
        | String c' s'' =>
            if bool_decide (c = CR) && bool_decide (c' = LF)
            then EmptyString :: splitlines s''
            else EmptyString :: splitlines s'
        | EmptyString => [EmptyString]
        end
      else
        match splitlines s' with
        | [] => [String c EmptyString]
        | l :: ls => String c l :: ls
        end
  end.

(** [s[:n]] *)
Fixpoint prefix (n : nat) (s : string) : string :=
  match n, s with
  | S n', String c s' => String c (prefix n' s')
  | _, _ => EmptyString
  end.

(** Universal-newlines translation of text-mode input: CR LF and a lone
    CR both read as LF. *)
Fixpoint universal_newlines (s : string) : string :=
  match s with
  | EmptyString => EmptyString
  | String c s' =>
      if bool_decide (c = CR) then
        match s' with
        | String c' s'' =>
            if bool_decide (c' = LF) then String LF (universal_newlines s'')
            else String LF (universal_newlines s')
        | EmptyString => String LF EmptyString
        end
      else String c (universal_newlines s')
  end.

(** Lines of already translated text, each with its terminating LF
    (the last one may lack it), as [f.readlines()] returns them. *)
Fixpoint keepends (s : string) : list string :=
  match s with
  | EmptyString => []
  | String c s' =>
      if bool_decide (c = LF) then String LF EmptyString :: keepends s'
      else
        match keepends s' with
        | [] => [String c EmptyString]
        | l :: ls => String c l :: ls
        end
  end.

Definition readlines (content : string) : list string :=
  keepends (universal_newlines content).

(** [sep.join(l)] is [String.concat sep l]; [f.writelines(l)] writes
    [String.concat "" l]. *)
Definition join (sep : string) (l : list string) : string :=
  String.concat sep l.

End Py.

(** ** The outside world: files, standard output, HTTP requests *)

(** Exceptions that the source catches: [IOError] (an alias of [OSError])
    and any other [Exception]; each carries its message. *)
Inductive exn :=
| IOError (msg : string)
| OtherException (msg : string).

(** One constructor per [print] statement of the source, with the values
    that the statement formats. Sizes are in bytes. *)
Inductive report :=
| AlreadyExceeds (output_filename : string) (size max_size_mb : Z)
| NewOutputFile (output_filename : string)
| HeadersDoNotMatch (output_filename : string)
| FileHeaders (existing_headers_string : option string)
| BatchHeaders (header_line_of_this_batch : string)
| NowExceeds (output_filename : string) (new_file_size max_size_mb : Z)
| IOErrorSaving (output_filename msg : string)
| UnexpectedSaving (output_filename msg : string)
| PostNotFound (file_path : string)
| PostNoBlankRows (file_path : string)
| PostRemoved (removed : Z) (file_path : string)
| PostIOError (file_path msg : string)
| PostUnexpected (file_path msg : string)
| NoVinsProvided
| ProcessingBatch (number num_batches len : nat)
| InfoHeaderOnly (number : nat) (csv : string)
| WarnMalformed (number : nat) (csv : string)
| WarnNoResults (number : nat) (text : string)
| HttpErrorFor (number : nat) (msg : string)
| ResponseContent (text : string)
| RequestExceptionFor (number : nat) (msg : string)
| UnexpectedApiError (number : nat) (msg : string)
| NoDataDecoded.

Record world := World {
  files : gmap string string;   (* path -> content *)
  stdout : list report;         (* what was printed, oldest first *)
  posted : list string          (* 'data' field of each POST, oldest first *)
}.

Definition py_print (r : report) (w : world) : world :=
  World (files w) (stdout w ++ [r]) (posted w).

Definition prints (rs : list report) (w : world) : world :=
  World (files w) (stdout w ++ rs) (posted w).

Definition record_post (data : string) (w : world) : world :=
  World (files w) (stdout w) (posted w ++ [data]).

(** [os.path.exists] *)
Definition path_exists (w : world) (path : string) : bool :=
  bool_decide (is_Some (files w !! path)).

(** Number of bytes of a text in a file (UTF-8): one for a code point below
    128, two for a code point from 128 to 255. *)
Fixpoint encoded_length (s : string) : nat :=
  match s with
  | EmptyString => 0%nat
  | String c s' => ((if (N_of_ascii c <? 128)%N then 1 else 2) + encoded_length s')%nat
  end.

(** [os.path.getsize]: the bytes on disk; the source calls it only on a path
    that exists (after [os.path.exists], or after the file was opened for
    appending). *)
Definition getsize (w : world) (path : string) : Z :=
  Z.of_nat (encoded_length (default "" (files w !! path))).

Definition os_linesep : string := String Py.LF "".

(** Content after [open(path, 'a')] and writing [data]: the file is created
    when missing. *)
Definition append_file (path data : string) (w : world) : world :=
  World (<[path := default "" (files w !! path) +:+ data]> (files w))
        (stdout w) (posted w).

(** Content after [open(path, 'w')] and writing [data]. *)
Definition overwrite_file (path data : string) (w : world) : world :=
  World (<[path := data]> (files w)) (stdout w) (posted w).

(** ** Rollover writer *)

(** What happens to the [try] block of the writer: it completes, [open]
    raises, a [write] (or the flush on close) raises after [n] characters
    reached the file, or [os.path.getsize] raises after the write. *)
Inductive io_outcome :=
| IoOk
| IoOpenFails (e : exn)
| IoWriteFails (n : nat) (e : exn)
| IoGetsizeFails (e : exn).

Definition io_failed (io : io_outcome) : bool :=
  match io with IoOk => false | _ => true end.

Definition io_exn (io : io_outcome) : option exn :=
  match io with
  | IoOk => None
  | IoOpenFails e | IoWriteFails _ e | IoGetsizeFails e => Some e
  end.

Definition max_size_bytes (max_size_mb : Z) : Z := max_size_mb * 1024 * 1024.

(** Lines 67-70 and 79-82. *)
Definition output_filename_of (base_filename : string) (current_file_idx : Z) : string :=
  if bool_decide (current_file_idx = 0) then base_filename +:+ ".csv"
  else base_filename +:+ pretty current_file_idx +:+ ".csv".

(** The three values the writer carries and finally returns. *)
Record writer_state := WriterState {
  ws_idx : Z;                    (* current_file_idx *)
  ws_header : option string;     (* existing_headers_string, then final_headers_for_this_file *)
  ws_filename : string           (* output_filename *)
}.

(** Lines 66-83: filename of the index, and the initial rollover check. *)
Definition initial_rollover (base_filename : string) (current_file_idx max_size_mb : Z)
    (existing_headers_string : option string) (w : world) : writer_state * world :=
  let output_filename := output_filename_of base_filename current_file_idx in
  if path_exists w output_filename
     && (max_size_bytes max_size_mb <? getsize w output_filename) then
    let w := py_print (AlreadyExceeds output_filename (getsize w output_filename) max_size_mb) w in
    let current_file_idx := current_file_idx + 1 in
    let output_filename := output_filename_of base_filename current_file_idx in
    let w := py_print (NewOutputFile output_filename) w in
    (WriterState current_file_idx None output_filename, w)
  else
    (WriterState current_file_idx existing_headers_string output_filename, w).

(** Lines 92-96: the loop that keeps the stripped, non-empty lines. *)
Definition keep_nonblank (temp_lines : list string) : list string :=
  fold_left (fun current_batch_lines_list l =>
               let stripped_l := Py.strip l in
               if Py.nonempty stripped_l
               then current_batch_lines_list ++ [stripped_l]
               else current_batch_lines_list)
            temp_lines [].

(** Lines 86-96, without the two early returns: the batch as the list of
    its stripped non-blank lines. *)
Definition batch_lines (raw_csv_batch_data : string) : list string :=
  keep_nonblank (Py.splitlines (Py.strip raw_csv_batch_data)).

(** Lines 101-118: which lines to write and which header to keep.  The
    result is [lines_to_actually_write], [final_headers_for_this_file] and
    what is printed. *)
Definition choose_lines (output_filename : string) (file_exists_before_write : bool)
    (existing_headers_string : option string)
    (header_line_of_this_batch : string) (current_batch_lines_list : list string)
    : list string * option string * list report :=
  if negb file_exists_before_write || negb (Py.truthy existing_headers_string) then
    (current_batch_lines_list, Some header_line_of_this_batch, [])
  else if bool_decide (Some header_line_of_this_batch = existing_headers_string) then
    if bool_decide (1 < length current_batch_lines_list)%nat
    then (drop 1 current_batch_lines_list, existing_headers_string, [])
    else ([], existing_headers_string, [])
  else
    ([], existing_headers_string,
     [HeadersDoNotMatch output_filename;
      FileHeaders existing_headers_string;
      BatchHeaders header_line_of_this_batch]).

(** Lines 123-124: everything the loop writes, in order. *)
Definition written_text (lines_to_actually_write : list string) : string :=
  fold_right (fun line rest => line +:+ os_linesep +:+ rest) "" lines_to_actually_write.

(** The [except] clauses, lines 132-135. *)
Definition report_save_error (output_filename : string) (e : exn) : report :=
  match e with
  | IOError msg => IOErrorSaving output_filename msg
  | OtherException msg => UnexpectedSaving output_filename msg
  end.

(** Lines 120-137 for a non-empty [lines_to_actually_write]. *)
Definition write_and_check (io : io_outcome) (max_size_mb : Z)
    (current_file_idx : Z) (final_headers_for_this_file : option string)
    (output_filename : string) (lines_to_actually_write : list string)
    (w : world) : writer_state * world :=
  let data := written_text lines_to_actually_write in
  match io with
  | IoOpenFails e =>
      (WriterState current_file_idx final_headers_for_this_file output_filename,
       py_print (report_save_error output_filename e) w)
  | IoWriteFails n e =>
      (WriterState current_file_idx final_headers_for_this_file output_filename,
       py_print (report_save_error output_filename e)
                (append_file output_filename (Py.prefix n data) w))
  | IoGetsizeFails e =>
      (WriterState current_file_idx final_headers_for_this_file output_filename,
       py_print (report_save_error output_filename e)
                (append_file output_filename data w))
  | IoOk =>
      let w := append_file output_filename data w in
      let new_file_size := getsize w output_filename in
      if max_size_bytes max_size_mb <? new_file_size then
        (WriterState (current_file_idx + 1) None output_filename,
         py_print (NowExceeds output_filename new_file_size max_size_mb) w)
      else
        (WriterState current_file_idx final_headers_for_this_file output_filename, w)
  end.

(** Lines 49-137.  The defaults [max_size_mb=500] and
    [existing_headers_string=None] are supplied by the caller. *)
Definition append_results_to_csv_with_rollover (io : io_outcome)
    (raw_csv_batch_data base_filename : string) (current_file_idx max_size_mb : Z)
    (existing_headers_string : option string) (w : world) : writer_state * world :=
  let '(s, w) := initial_rollover base_filename current_file_idx max_size_mb
                                  existing_headers_string w in
  let clean_raw_csv_batch_data := Py.strip raw_csv_batch_data in
  if negb (Py.nonempty clean_raw_csv_batch_data) then (s, w)
  else
    let current_batch_lines_list := keep_nonblank (Py.splitlines clean_raw_csv_batch_data) in
    match current_batch_lines_list with
    | [] => (s, w)
    | header_line_of_this_batch :: _ =>
        let file_exists_before_write := path_exists w (ws_filename s) in
        let '(lines_to_actually_write, final_headers_for_this_file, warnings) :=
          choose_lines (ws_filename s) file_exists_before_write (ws_header s)
                       header_line_of_this_batch current_batch_lines_list in
        let w := prints warnings w in
        match lines_to_actually_write with
        | [] => (WriterState (ws_idx s) final_headers_for_this_file (ws_filename s), w)
        | _ :: _ =>
            write_and_check io max_size_mb (ws_idx s) final_headers_for_this_file
                            (ws_filename s) lines_to_actually_write w
        end
    end.

(** ** Cleanup pass *)

(** What happens to the [try] block of the cleanup pass: it completes,
    reading raises, [open(file_path, 'w')] raises (the file is untouched),
    or writing raises after [n] characters reached the truncated file. *)
Inductive clean_outcome :=
| CleanOk
| CleanReadFails (e : exn)
| CleanOpenFails (e : exn)
| CleanWriteFails (n : nat) (e : exn).

(** The [except] clauses, lines 171-174. *)
Definition report_post_error (file_path : string) (e : exn) : report :=
  match e with
  | IOError msg => PostIOError file_path msg
  | OtherException msg => PostUnexpected file_path msg
  end.

(** Line 157: a line is kept when it is non-empty after [strip]. *)
Definition not_blank (line : string) : bool := Py.nonempty (Py.strip line).

(** Line 165. *)
Definition normalize_ending (line : string) : string :=
  Py.rstrip_crlf line +:+ os_linesep.

(** Lines 140-174. *)
Definition remove_blank_rows_from_file (io : clean_outcome) (file_path : string)
    (w : world) : world :=
  if negb (path_exists w file_path) then py_print (PostNotFound file_path) w
  else
    match io with
    | CleanReadFails e => py_print (report_post_error file_path e) w
    | _ =>
        let lines := Py.readlines (default "" (files w !! file_path)) in
        let cleaned_lines := filter (fun line => not_blank line) lines in
        if bool_decide (length cleaned_lines = length lines) then
          py_print (PostNoBlankRows file_path) w
        else
          let processed_cleaned_lines := map normalize_ending cleaned_lines in
          let data := String.concat "" processed_cleaned_lines in
          match io with
          | CleanOpenFails e => py_print (report_post_error file_path e) w
          | CleanWriteFails n e =>
              py_print (report_post_error file_path e)
                       (overwrite_file file_path (Py.prefix n data) w)
          | _ =>
              py_print (PostRemoved (Z.of_nat (length lines) - Z.of_nat (length cleaned_lines))
                                    file_path)
                       (overwrite_file file_path data w)
          end
    end.

(** ** Batch orchestrator *)

(** Outcome of [requests.post] followed by [raise_for_status]: a response
    text, an [HTTPError] (the response still has a text), another
    [RequestException], or any other exception. *)
Inductive api_result :=
| ApiOk (text : string)
| ApiHttpError (msg text : string)
| ApiRequestException (msg : string)
| ApiOtherException (msg : string).

(** The environment of one run: what the decoding service answers to the
    [i]-th request, and what happens to the file write of the [i]-th batch. *)
Record env := Env {
  api : nat -> string -> api_result;
  io : nat -> io_outcome
}.

(** The variables that the loop of [decode_vins_in_batches] updates. *)
Record loop_state := LoopState {
  total_successfully_decoded_vins : Z;
  current_file_index : Z;
  current_headers : option string;
  written_files : gset string;
  wld : world
}.

Definition batch_size : nat := 50.

(** Line 199. *)
Definition num_batches_of (vin_list : list string) : nat :=
  ((length vin_list + batch_size - 1) `div` batch_size)%nat.

(** Lines 202-204: [vin_list[start_index:end_index]]. *)
Definition batch_vins_of (vin_list : list string) (i : nat) : list string :=
  let start_index := (i * batch_size)%nat in
  take batch_size (drop start_index vin_list).

(** Lines 220-221. *)
Definition processed_lines_of (raw_csv_data_from_batch : string) : list string :=
  filter (fun line => Py.nonempty line)
         (map Py.strip (Py.splitlines (Py.strip raw_csv_data_from_batch))).

(** Line 223. *)
Definition num_data_lines_of (processed_lines : list string) : Z :=
  match processed_lines with
  | [] => -1
  | _ :: _ => Z.of_nat (length processed_lines) - 1
  end.

(** Lines 241-244. *)
Definition adopt_header (current_headers : option string) (processed_lines : list string)
    : option string :=
  if negb (Py.truthy current_headers) then
    match processed_lines with
    | header_line :: _ => if Py.nonempty header_line then Some header_line else current_headers
    | [] => current_headers
    end
  else current_headers.

(** The loop state with another world. *)
Definition set_world (st : loop_state) (w : world) : loop_state :=
  LoopState (total_successfully_decoded_vins st) (current_file_index st)
            (current_headers st) (written_files st) w.

(** Lines 218-250: what the loop does with a response text. *)
Definition handle_response (E : env) (base_output_filename : string) (max_file_size_mb : Z)
    (i : nat) (raw_csv_data_from_batch : string) (st : loop_state) : loop_state :=
  if Py.nonempty raw_csv_data_from_batch && Py.nonempty (Py.strip raw_csv_data_from_batch) then
    let processed_lines := processed_lines_of raw_csv_data_from_batch in
    let num_data_lines_in_batch := num_data_lines_of processed_lines in
    if 0 <=? num_data_lines_in_batch then
      let '(r, w) := append_results_to_csv_with_rollover (io E i) raw_csv_data_from_batch
                       base_output_filename (current_file_index st) max_file_size_mb
                       (current_headers st) (wld st) in
      let actual_filename_written := ws_filename r in
      let written_files :=
        if path_exists w actual_filename_written
        then {[actual_filename_written]} ∪ written_files st
        else written_files st in
      if 0 <? num_data_lines_in_batch then
        LoopState (total_successfully_decoded_vins st + num_data_lines_in_batch)
                  (ws_idx r) (ws_header r) written_files w
      else if bool_decide (num_data_lines_in_batch = 0)
              && bool_decide (length processed_lines = 1%nat) then
        let w := py_print (InfoHeaderOnly (i + 1) (Py.prefix 200 raw_csv_data_from_batch)) w in
        LoopState (total_successfully_decoded_vins st)
                  (ws_idx r) (adopt_header (ws_header r) processed_lines) written_files w
      else
        LoopState (total_successfully_decoded_vins st)
                  (ws_idx r) (ws_header r) written_files w
    else
      set_world st (py_print (WarnMalformed (i + 1) (Py.prefix 200 raw_csv_data_from_batch))
                             (wld st))
  else
    set_world st (py_print (WarnNoResults (i + 1) raw_csv_data_from_batch) (wld st)).

(** Lines 202-258: the body of the loop for batch [i]. *)
Definition process_batch (E : env) (vin_list : list string) (base_output_filename : string)
    (max_file_size_mb : Z) (num_batches : nat) (st : loop_state) (i : nat) : loop_state :=
  let batch_vins := batch_vins_of vin_list i in
  let vin_string := Py.join ";" batch_vins in
  let w := py_print (ProcessingBatch (i + 1) num_batches (length batch_vins)) (wld st) in
  let w := record_post vin_string w in
  let st := set_world st w in
  match api E i vin_string with
  | ApiOk text => handle_response E base_output_filename max_file_size_mb i text st
  | ApiHttpError msg text =>
      set_world st (prints [HttpErrorFor (i + 1) msg; ResponseContent text] w)
  | ApiRequestException msg =>
      set_world st (py_print (RequestExceptionFor (i + 1) msg) w)
  | ApiOtherException msg =>
      set_world st (py_print (UnexpectedApiError (i + 1) msg) w)
  end.

(** Lines 193-196. *)
Definition initial_state (w : world) : loop_state :=
  LoopState 0 0 None ∅ w.

(** The state after the batches listed in [batches] (lines 201-258). *)
Definition run_batches (E : env) (vin_list : list string) (base_output_filename : string)
    (max_file_size_mb : Z) (batches : list nat) (st : loop_state) : loop_state :=
  fold_left (process_batch E vin_list base_output_filename max_file_size_mb
                           (num_batches_of vin_list))
            batches st.

(** Lines 177-263.  The defaults [base_output_filename="decoded_vins_output"]
    and [max_file_size_mb=2] are supplied by the caller.  The result is the
    returned pair and the world after the run. *)
Definition decode_vins_in_batches (E : env) (vin_list : list string)
    (base_output_filename : string) (max_file_size_mb : Z) (w : world)
    : (Z * list string) * world :=
  match vin_list with
  | [] => ((0, []), py_print NoVinsProvided w)
  | _ :: _ =>
      let st := run_batches E vin_list base_output_filename max_file_size_mb
                            (seq 0 (num_batches_of vin_list)) (initial_state w) in
      let w := if bool_decide (total_successfully_decoded_vins st = 0)
               then py_print NoDataDecoded (wld st) else wld st in
      ((total_successfully_decoded_vins st, elements (written_files st)), w)
  end.

(** ** What a call of the writer decides *)

(** The writer state after the initial rollover check of a call. *)
Definition resolved (base_filename : string) (current_file_idx max_size_mb : Z)
    (existing_headers_string : option string) (w : world) : writer_state :=
  (initial_rollover base_filename current_file_idx max_size_mb existing_headers_string w).1.

(** [lines_to_actually_write], [final_headers_for_this_file] and the
    warnings of a call, as they stand at line 120 (for a blank batch, which
    returns before: nothing to write and the resolved header). *)
Definition decision (raw_csv_batch_data base_filename : string)
    (current_file_idx max_size_mb : Z) (existing_headers_string : option string)
    (w : world) : list string * option string * list report :=
  let '(s, w1) := initial_rollover base_filename current_file_idx max_size_mb
                                   existing_headers_string w in
  match batch_lines raw_csv_batch_data with
  | [] => ([], ws_header s, [])
  | header_line_of_this_batch :: _ =>
      choose_lines (ws_filename s) (path_exists w1 (ws_filename s)) (ws_header s)
                   header_line_of_this_batch (batch_lines raw_csv_batch_data)
  end.

Definition lines_to_actually_write raw base idx mb hdr w : list string :=
  (decision raw base idx mb hdr w).1.1.

Definition final_headers_for_this_file raw base idx mb hdr w : option string :=
  (decision raw base idx mb hdr w).1.2.

(** The target file is oversize before the call (line 73). *)
Definition oversize (w : world) (path : string) (max_size_mb : Z) : Prop :=
  path_exists w path = true ∧ max_size_bytes max_size_mb < getsize w path.

(** Every character is white space (in particular: the empty text). *)
Fixpoint all_space (s : string) : bool :=
  match s with
  | EmptyString => true
  | String c s' => Py.isspace c && all_space s'
  end.

#[global] Instance oversize_dec w path mb : Decision (oversize w path mb).
Proof. unfold oversize. apply _. Defined.

(** The file system after the last stage of the writer, for every outcome
    of the [try] block. *)
Definition files_after_write (io : io_outcome) (path : string) (lines : list string)
    (fs : gmap string string) : gmap string string :=
  match io with
  | IoOpenFails _ => fs
  | IoWriteFails n _ =>
      <[path := default "" (fs !! path) +:+ Py.prefix n (written_text lines)]> fs
  | IoGetsizeFails _ | IoOk =>
      <[path := default "" (fs !! path) +:+ written_text lines]> fs
  end.

(** ** What a run of the orchestrator does, batch by batch *)

(** The call of the writer that the loop makes for a response text, with its
    result; [None] when the guards of lines 218 and 225 skip the writer. *)
Definition writer_call_for (E : env) (base_output_filename : string) (max_file_size_mb : Z)
    (i : nat) (raw_csv_data_from_batch : string) (st : loop_state)
    : option (writer_state * world) :=
  if Py.nonempty raw_csv_data_from_batch && Py.nonempty (Py.strip raw_csv_data_from_batch)
     && (0 <=? num_data_lines_of (processed_lines_of raw_csv_data_from_batch))
  then Some (append_results_to_csv_with_rollover (io E i) raw_csv_data_from_batch
               base_output_filename (current_file_index st) max_file_size_mb
               (current_headers st) (wld st))
  else None.

(** The loop state when batch [n] starts. *)
Definition state_before (E : env) (vin_list : list string) (base_output_filename : string)
    (max_file_size_mb : Z) (w : world) (n : nat) : loop_state :=
  run_batches E vin_list base_output_filename max_file_size_mb (seq 0 n) (initial_state w).

(** The loop state of batch [i] once the request has been announced and sent. *)
Definition state_at_response (E : env) (vin_list : list string)
    (base_output_filename : string) (max_file_size_mb : Z) (w : world) (i : nat)
    : loop_state :=
  let st := state_before E vin_list base_output_filename max_file_size_mb w i in
  let batch_vins := batch_vins_of vin_list i in
  set_world st
    (record_post (Py.join ";" batch_vins)
       (py_print (ProcessingBatch (i + 1) (num_batches_of vin_list) (length batch_vins))
                 (wld st))).

(** The call of the writer made for batch [i] of a run, with its result. *)
Definition writer_call (E : env) (vin_list : list string) (base_output_filename : string)
    (max_file_size_mb : Z) (w : world) (i : nat) : option (writer_state * world) :=
  match api E i (Py.join ";" (batch_vins_of vin_list i)) with
  | ApiOk text =>
      writer_call_for E base_output_filename max_file_size_mb i text
        (state_at_response E vin_list base_output_filename max_file_size_mb w i)
  | _ => None
  end.

(** One batch adds the file returned by its writer call, when there is a
    call and the file exists after it. *)
Definition added_by (call : option (writer_state * world)) (written : gset string)
    : gset string :=
  match call with
  | Some r => if path_exists r.2 (ws_filename r.1)
              then {[ws_filename r.1]} ∪ written else written
  | None => written
  end.

(** ** Lines as the cleanup pass sees them *)

(** A text without CR. *)
Fixpoint no_cr (s : string) : bool :=
  match s with
  | EmptyString => true
  | String c s' => negb (bool_decide (c = Py.CR)) && no_cr s'
  end.

(** A text without CR and LF: the body of a line. *)
Fixpoint line_body (s : string) : bool :=
  match s with
  | EmptyString => true
  | String c s' => negb (Py.is_crlf c) && line_body s'
  end.

(** The content that the cleanup pass leaves in a file with [content]. *)
Definition cleaned_content (content : string) : string :=
  let lines := Py.readlines content in
  let cleaned_lines := filter (fun line => not_blank line) lines in
  if bool_decide (length cleaned_lines = length lines) then content
  else String.concat "" (map normalize_ending cleaned_lines).

(** ** Further notions used to state properties *)

(** A text without any of the line boundaries of [str.splitlines]. *)
Fixpoint no_linebreak (s : string) : bool :=
  match s with
  | EmptyString => true
  | String c s' => negb (Py.is_linebreak c) && no_linebreak s'
  end.

(** [a] is the beginning of [b]. *)
Definition starts_with (b a : string) : Prop := ∃ rest, b = a +:+ rest.

(** A file in the form the writer produces: non-blank lines without CR or
    LF inside, each followed by the line separator. *)
Definition tidy (content : string) : Prop :=
  ∃ lines, Forall (fun l => line_body l = true ∧ not_blank l = true) lines
           ∧ content = written_text lines.

Definition all_tidy (fs : gmap string string) : Prop :=
  ∀ path content, fs !! path = Some content -> tidy content.

(** No line of the file is blank. *)
Definition blank_free (content : string) : Prop :=
  Forall (fun line => not_blank line = true) (Py.readlines content).

(** What line 237 adds to the counter for one request. *)
Definition rows_counted (a : api_result) : Z :=
  match a with
  | ApiOk text => Z.of_nat (length (processed_lines_of text) - 1)
  | _ => 0
  end.

(** The answer to the request of batch [i]. *)
Definition answer (E : env) (vin_list : list string) (i : nat) : api_result :=
  api E i (Py.join ";" (batch_vins_of vin_list i)).

(** A request that brings nothing to write: it fails, or its text is blank. *)
Definition unusable (a : api_result) : Prop :=
  match a with
  | ApiOk text => all_space text = true
  | _ => True
  end.

(** Lines 286-287: the cleanup pass over the files of a run, in the order
    of the list; [cio] tells what happens to the pass of each file. *)
Definition cleanup_written_files (cio : string -> clean_outcome)
    (files_written_to : list string) (w : world) : world :=
  fold_left (fun w f_path => remove_blank_rows_from_file (cio f_path) f_path w)
            files_written_to w.

(** The reports that the writer prints (lines 74-83, 115-118, 128-135). *)
Definition writer_report (r : report) : Prop :=
  match r with
  | AlreadyExceeds _ _ _ | NewOutputFile _ | HeadersDoNotMatch _ | FileHeaders _
  | BatchHeaders _ | NowExceeds _ _ _ | IOErrorSaving _ _ | UnexpectedSaving _ _ => True
  | _ => False
  end.

(** Batch [i] of a run changed the file system by a call of the writer that
    returned the file [f], and the first line of the batch was [h]. *)
Definition batch_changed (E : env) (vin_list : list string) (base_output_filename : string)
    (max_file_size_mb : Z) (w : world) (i : nat) (f h : string) : Prop :=
  ∃ raw r,
    answer E vin_list i = ApiOk raw
    ∧ writer_call E vin_list base_output_filename max_file_size_mb w i = Some r
    ∧ head (batch_lines raw) = Some h
    ∧ ws_filename r.1 = f
    ∧ files r.2
      ≠ files (wld (state_before E vin_list base_output_filename max_file_size_mb w i)).

(** ** Basic facts *)

Lemma keep_nonblank_from (temp_lines acc : list string) :
  fold_left (fun current_batch_lines_list l =>
               let stripped_l := Py.strip l in
               if Py.nonempty stripped_l
               then current_batch_lines_list ++ [stripped_l]
               else current_batch_lines_list)
            temp_lines acc
  = acc ++ filter (fun line => Py.nonempty line) (map Py.strip temp_lines).
Proof.
  revert acc. induction temp_lines as [|l ls IH]; intros acc; simpl.
  - by rewrite app_nil_r.
  - rewrite IH. destruct (Py.nonempty (Py.strip l)) eqn:E.
    + rewrite filter_cons_True by (by rewrite E). by rewrite <- app_assoc.
    + rewrite filter_cons_False by (rewrite E; intros []). done.
Qed.

(** The writer and the orchestrator normalise a response in the same way. *)
Lemma batch_lines_processed (raw : string) :
  batch_lines raw = processed_lines_of raw.
Proof. unfold batch_lines, keep_nonblank. by rewrite keep_nonblank_from. Qed.

Lemma batch_lines_nonempty_lines (raw : string) :
  Forall (fun l => Py.nonempty l = true) (batch_lines raw).
Proof.
  rewrite batch_lines_processed. unfold processed_lines_of.
  apply Forall_forall. intros l [Hl _]%list_elem_of_filter.
  by destruct (Py.nonempty l).
Qed.

Lemma batch_lines_strip_empty (raw : string) :
  Py.nonempty (Py.strip raw) = false -> batch_lines raw = [].
Proof.
  unfold batch_lines. destruct (Py.strip raw); [done | discriminate].
Qed.

Lemma lstrip_all_space (s : string) : all_space s = true -> Py.lstrip s = "".
Proof.
  induction s as [|c s IH]; simpl; [done|].
  intros [Hc Hs]%andb_prop. rewrite Hc. auto.
Qed.

Lemma strip_all_space (s : string) : all_space s = true -> Py.strip s = "".
Proof. intros H. unfold Py.strip. by rewrite lstrip_all_space. Qed.

Lemma initial_rollover_files base idx mb hdr w :
  files (initial_rollover base idx mb hdr w).2 = files w
  ∧ posted (initial_rollover base idx mb hdr w).2 = posted w.
Proof. unfold initial_rollover. by case_match. Qed.

Lemma initial_rollover_oversize base idx mb hdr w :
  oversize w (output_filename_of base idx) mb ->
  initial_rollover base idx mb hdr w
  = (WriterState (idx + 1) None (output_filename_of base (idx + 1)),
     prints [AlreadyExceeds (output_filename_of base idx)
                            (getsize w (output_filename_of base idx)) mb;
             NewOutputFile (output_filename_of base (idx + 1))] w).
Proof.
  intros [He Hs]. unfold initial_rollover. rewrite He.
  apply Z.ltb_lt in Hs. rewrite Hs. simpl.
  unfold prints, py_print. simpl. by rewrite <- app_assoc.
Qed.

Lemma initial_rollover_fits base idx mb hdr w :
  ¬ oversize w (output_filename_of base idx) mb ->
  initial_rollover base idx mb hdr w
  = (WriterState idx hdr (output_filename_of base idx), w).
Proof.
  intros Hn. unfold initial_rollover.
  destruct (path_exists w _) eqn:He; simpl; [|done].
  destruct (_ <? _) eqn:Hs; [|done].
  exfalso. apply Hn. split; [done|]. by apply Z.ltb_lt.
Qed.

Lemma resolved_cases base idx mb hdr w :
  (oversize w (output_filename_of base idx) mb
   ∧ resolved base idx mb hdr w
     = WriterState (idx + 1) None (output_filename_of base (idx + 1)))
  ∨ (¬ oversize w (output_filename_of base idx) mb
     ∧ resolved base idx mb hdr w = WriterState idx hdr (output_filename_of base idx)).
Proof.
  unfold resolved.
  destruct (decide (oversize w (output_filename_of base idx) mb)) as [H|H].
  - left. split; [done|]. by rewrite initial_rollover_oversize.
  - right. split; [done|]. by rewrite initial_rollover_fits.
Qed.

(** The writer as its three stages: resolve, decide, write. *)
Lemma append_results_stages io raw base idx mb hdr w :
  append_results_to_csv_with_rollover io raw base idx mb hdr w
  = let s := resolved base idx mb hdr w in
    let w1 := (initial_rollover base idx mb hdr w).2 in
    let '(lines, final_headers, warnings) := decision raw base idx mb hdr w in
    match lines with
    | [] => (WriterState (ws_idx s) final_headers (ws_filename s), prints warnings w1)
    | _ :: _ =>
        write_and_check io mb (ws_idx s) final_headers (ws_filename s) lines
                        (prints warnings w1)
    end.
Proof.
  unfold append_results_to_csv_with_rollover, decision, resolved.
  destruct (initial_rollover base idx mb hdr w) as [s w1] eqn:Hr. simpl.
  assert (Hnop : prints [] w1 = w1).
  { destruct w1. unfold prints. simpl. by rewrite app_nil_r. }
  destruct (Py.nonempty (Py.strip raw)) eqn:Hne; simpl.
  - fold (batch_lines raw). destruct (batch_lines raw) as [|h rest] eqn:Hb.
    + rewrite Hnop. by destruct s.
    + destruct (choose_lines _ _ _ _ _) as [[lw fh] warns]. by destruct lw.
  - rewrite (batch_lines_strip_empty raw Hne). rewrite Hnop. by destruct s.
Qed.

(** ** Strings and file names *)

Lemma str_app_cons (c : ascii) (s t : string) :
  String c s +:+ t = String c (s +:+ t).
Proof. reflexivity. Qed.

Lemma str_app_nil_l (s : string) : "" +:+ s = s.
Proof. reflexivity. Qed.

Lemma str_app_nil_r (s : string) : s +:+ "" = s.
Proof. induction s as [|c s IH]; [done | by rewrite str_app_cons, IH]. Qed.

Lemma str_app_assoc (s1 s2 s3 : string) : (s1 +:+ s2) +:+ s3 = s1 +:+ s2 +:+ s3.
Proof. induction s1 as [|c s1 IH]; [done | by rewrite !str_app_cons, IH]. Qed.

Lemma str_length_app (s1 s2 : string) :
  String.length (s1 +:+ s2) = (String.length s1 + String.length s2)%nat.
Proof. induction s1 as [|c s1 IH]; [done | rewrite str_app_cons; simpl; by rewrite IH]. Qed.

Lemma pretty_N_go_nonempty (x : N) (s : string) : s ≠ "" -> pretty_N_go x s ≠ "".
Proof.
  revert s. induction (N.lt_wf_0 x) as [x _ IH]; intros s Hs.
  assert (x = 0 ∨ 0 < x)%N as [->|Hx] by lia.
  - by rewrite pretty_N_go_0.
  - rewrite pretty_N_go_step by done. apply IH; [by apply N.div_lt | done].
Qed.

Lemma pretty_Z_nonempty (z : Z) : pretty z ≠ "".
Proof.
  destruct z as [|p|p]; [done| |done].
  unfold pretty, pretty_Z, pretty, pretty_positive, pretty, pretty_N.
  case_decide; [done|].
  rewrite pretty_N_go_step by lia. by apply pretty_N_go_nonempty.
Qed.

(** Distinct indices name distinct files. *)
Lemma output_filename_of_inj (base : string) (i j : Z) :
  output_filename_of base i = output_filename_of base j -> i = j.
Proof.
  assert (Hne : ∀ k : Z, ".csv" ≠ pretty k +:+ ".csv").
  { intros k Hk. apply (f_equal String.length) in Hk.
    rewrite str_length_app in Hk. simpl in Hk.
    pose proof (pretty_Z_nonempty k) as Hp.
    destruct (pretty k); [done | simpl in Hk; lia]. }
  unfold output_filename_of. intros H.
  repeat case_bool_decide; subst; try done.
  - apply (inj (String.app base)) in H. by destruct (Hne j).
  - apply (inj (String.app base)) in H. by destruct (Hne i).
  - apply (inj (String.app base)) in H.
    assert (Hp : pretty i = pretty j).
    { revert H. generalize (pretty i) (pretty j). intros a.
      induction a as [|c a IH]; intros [|d b] Hab; simpl in *; try done.
      - exfalso. apply (f_equal String.length) in Hab.
        simpl in Hab. rewrite str_length_app in Hab. simpl in Hab. lia.
      - exfalso. apply (f_equal String.length) in Hab.
        simpl in Hab. rewrite str_length_app in Hab. simpl in Hab. lia.
      - injection Hab as -> Hab. f_equal. by apply IH. }
    by apply (inj pretty).
Qed.

Lemma output_filename_next (base : string) (idx : Z) :
  output_filename_of base idx ≠ output_filename_of base (idx + 1).
Proof. intros H%output_filename_of_inj. lia. Qed.

Lemma written_text_app (l1 l2 : list string) :
  written_text (l1 ++ l2) = written_text l1 +:+ written_text l2.
Proof.
  induction l1 as [|l l1 IH]; simpl; [done|].
  by rewrite IH, !str_app_assoc.
Qed.

Lemma written_text_nonempty (l : string) (ls : list string) :
  written_text (l :: ls) ≠ "".
Proof.
  simpl. intros H. apply (f_equal String.length) in H.
  rewrite !str_length_app in H. simpl in H. lia.
Qed.

(** ** The stages of the writer *)

Lemma path_exists_files (w w' : world) (path : string) :
  files w' = files w -> path_exists w' path = path_exists w path.
Proof. unfold path_exists. by intros ->. Qed.

Lemma path_exists_resolved base idx mb hdr w path :
  path_exists (initial_rollover base idx mb hdr w).2 path = path_exists w path.
Proof. apply path_exists_files, initial_rollover_files. Qed.

Lemma resolved_header_falsy base idx mb hdr w :
  Py.truthy hdr = false -> Py.truthy (ws_header (resolved base idx mb hdr w)) = false.
Proof.
  intros H. by destruct (resolved_cases base idx mb hdr w) as [[_ ->]|[_ ->]].
Qed.

Lemma resolved_header_some base idx mb hdr w e :
  ws_header (resolved base idx mb hdr w) = Some e ->
  ¬ oversize w (output_filename_of base idx) mb
  ∧ hdr = Some e
  ∧ initial_rollover base idx mb hdr w
    = (WriterState idx hdr (output_filename_of base idx), w).
Proof.
  intros H. destruct (resolved_cases base idx mb hdr w) as [[_ Hr]|[Hn Hr]];
    rewrite Hr in H; simpl in H; [done|].
  split; [done|]. split; [done|]. by apply initial_rollover_fits.
Qed.

Lemma decision_unfold raw base idx mb hdr w h rest :
  batch_lines raw = h :: rest ->
  decision raw base idx mb hdr w
  = choose_lines (ws_filename (resolved base idx mb hdr w))
                 (path_exists w (ws_filename (resolved base idx mb hdr w)))
                 (ws_header (resolved base idx mb hdr w)) h (h :: rest).
Proof.
  intros Hb. unfold decision, resolved.
  rewrite <- (path_exists_resolved base idx mb hdr w).
  destruct (initial_rollover base idx mb hdr w) as [s w1]. by rewrite Hb.
Qed.

Lemma decision_blank raw base idx mb hdr w :
  batch_lines raw = [] ->
  decision raw base idx mb hdr w = ([], ws_header (resolved base idx mb hdr w), []).
Proof.
  intros Hb. unfold decision, resolved.
  destruct (initial_rollover base idx mb hdr w) as [s w1]. by rewrite Hb.
Qed.

Lemma batch_header_nonempty raw h rest :
  batch_lines raw = h :: rest -> Py.nonempty h = true.
Proof.
  intros Hb. pose proof (batch_lines_nonempty_lines raw) as HF.
  rewrite Hb in HF. by inversion HF.
Qed.

(** First case of line 107: a new file, or no header recorded. *)
Lemma decision_fresh raw base idx mb hdr w h rest :
  batch_lines raw = h :: rest ->
  path_exists w (ws_filename (resolved base idx mb hdr w)) = false
  ∨ Py.truthy (ws_header (resolved base idx mb hdr w)) = false ->
  decision raw base idx mb hdr w = (h :: rest, Some h, []).
Proof.
  intros Hb Hc. rewrite (decision_unfold _ _ _ _ _ _ _ _ Hb).
  unfold choose_lines. by destruct Hc as [-> | ->]; simpl; rewrite ?orb_true_r.
Qed.

(** Line 111: the file exists and the batch repeats its header. *)
Lemma decision_same_header raw base idx mb hdr w h rest :
  batch_lines raw = h :: rest ->
  path_exists w (ws_filename (resolved base idx mb hdr w)) = true ->
  ws_header (resolved base idx mb hdr w) = Some h ->
  decision raw base idx mb hdr w = (rest, Some h, []).
Proof.
  intros Hb He Hh. rewrite (decision_unfold _ _ _ _ _ _ _ _ Hb).
  unfold choose_lines. rewrite He, Hh. simpl.
  rewrite (batch_header_nonempty _ _ _ Hb). simpl.
  rewrite bool_decide_eq_true_2 by done.
  case_bool_decide as Hl; [done|].
  destruct rest; [done | simpl in Hl; lia].
Qed.

(** Line 114: the file exists and the batch has another header. *)
Lemma decision_mismatch raw base idx mb hdr w h rest e :
  batch_lines raw = h :: rest ->
  path_exists w (ws_filename (resolved base idx mb hdr w)) = true ->
  ws_header (resolved base idx mb hdr w) = Some e -> e ≠ "" -> h ≠ e ->
  decision raw base idx mb hdr w
  = ([], Some e, [HeadersDoNotMatch (ws_filename (resolved base idx mb hdr w));
                  FileHeaders (Some e); BatchHeaders h]).
Proof.
  intros Hb He Hh Hne Hd. rewrite (decision_unfold _ _ _ _ _ _ _ _ Hb).
  unfold choose_lines. rewrite He, Hh. simpl.
  destruct e; [done|]. simpl.
  rewrite bool_decide_eq_false_2; [done|]. by intros [= ->].
Qed.

(** Whatever is chosen comes from the batch, under the header kept. *)
Lemma decision_lines_from_batch raw base idx mb hdr w :
  lines_to_actually_write raw base idx mb hdr w ≠ [] ->
  ∃ h rest, batch_lines raw = h :: rest
    ∧ final_headers_for_this_file raw base idx mb hdr w = Some h
    ∧ (lines_to_actually_write raw base idx mb hdr w = h :: rest
       ∨ lines_to_actually_write raw base idx mb hdr w = rest).
Proof.
  unfold lines_to_actually_write, final_headers_for_this_file.
  destruct (batch_lines raw) as [|h rest] eqn:Hb.
  { by rewrite (decision_blank _ _ _ _ _ _ Hb). }
  intros Hne. exists h, rest. split; [done|].
  rewrite (decision_unfold _ _ _ _ _ _ _ _ Hb) in *.
  unfold choose_lines in *.
  destruct (negb _ || negb _); simpl in *; [by auto|].
  case_bool_decide as Hh; simpl in *; [|done].
  case_bool_decide; simpl in *; [|done]. by rewrite <- Hh; auto.
Qed.

Lemma resolved_filename base idx mb hdr w :
  ws_filename (resolved base idx mb hdr w)
  = output_filename_of base (ws_idx (resolved base idx mb hdr w)).
Proof. by destruct (resolved_cases base idx mb hdr w) as [[_ ->]|[_ ->]]. Qed.

Lemma encoded_length_app (s1 s2 : string) :
  encoded_length (s1 +:+ s2) = (encoded_length s1 + encoded_length s2)%nat.
Proof.
  induction s1 as [|c s1 IH]; [done|].
  rewrite str_app_cons. simpl. rewrite IH. lia.
Qed.

(** A code point from 128 to 255 takes two bytes on disk. *)
Lemma encoded_length_non_ascii :
  encoded_length ("caf" +:+ String "233"%char "" +:+ os_linesep) = 6%nat
  ∧ String.length ("caf" +:+ String "233"%char "" +:+ os_linesep) = 5%nat.
Proof. split; reflexivity. Qed.

Lemma getsize_append_file path data w :
  getsize (append_file path data w) path
  = getsize w path + Z.of_nat (encoded_length data).
Proof.
  unfold getsize, append_file. simpl. rewrite lookup_insert_eq. simpl.
  rewrite encoded_length_app. lia.
Qed.

Lemma prints_files rs w : files (prints rs w) = files w.
Proof. done. Qed.

Lemma write_and_check_files io mb idx fh path lines w :
  files (write_and_check io mb idx fh path lines w).2
  = files_after_write io path lines (files w).
Proof. unfold write_and_check. destruct io; simpl; [by case_match|done..]. Qed.

Lemma write_and_check_failed io e mb idx fh path lines w :
  io_exn io = Some e ->
  (write_and_check io mb idx fh path lines w).1 = WriterState idx fh path
  ∧ stdout (write_and_check io mb idx fh path lines w).2
    = stdout w ++ [report_save_error path e].
Proof. destruct io; simpl; intros [= ->]; done. Qed.

Lemma write_and_check_ok mb idx fh path lines w :
  let w' := append_file path (written_text lines) w in
  write_and_check IoOk mb idx fh path lines w
  = if max_size_bytes mb <? getsize w' path
    then (WriterState (idx + 1) None path,
          py_print (NowExceeds path (getsize w' path) mb) w')
    else (WriterState idx fh path, w').
Proof. done. Qed.

Lemma write_and_check_state io mb idx fh path lines w :
  let r := write_and_check io mb idx fh path lines w in
  ws_filename r.1 = path ∧ idx ≤ ws_idx r.1 ≤ idx + 1.
Proof.
  unfold write_and_check. destruct io; simpl; [|split; [done | lia]..].
  case_match; simpl; split; (done || lia).
Qed.

(** The call in terms of what it decided, when something is to be written. *)
Lemma append_results_writes io raw base idx mb hdr w :
  lines_to_actually_write raw base idx mb hdr w ≠ [] ->
  append_results_to_csv_with_rollover io raw base idx mb hdr w
  = write_and_check io mb (ws_idx (resolved base idx mb hdr w))
      (final_headers_for_this_file raw base idx mb hdr w)
      (ws_filename (resolved base idx mb hdr w))
      (lines_to_actually_write raw base idx mb hdr w)
      (initial_rollover base idx mb hdr w).2.
Proof.
  intros Hne. rewrite append_results_stages.
  unfold lines_to_actually_write, final_headers_for_this_file in *.
  destruct (decision_lines_from_batch _ _ _ _ _ _ Hne) as (h & rest & Hb & _ & _).
  destruct (decision raw base idx mb hdr w) as [[lw fh] warns] eqn:Hd. simpl in *.
  destruct lw as [|l lw]; [done|].
  assert (warns = []) as ->.
  { rewrite (decision_unfold _ _ _ _ _ _ _ _ Hb) in Hd. unfold choose_lines in Hd.
    repeat case_match; by simplify_eq. }
  f_equal. destruct (initial_rollover _ _ _ _ _).2. unfold prints. simpl.
  by rewrite app_nil_r.
Qed.

(** The call when nothing is to be written. *)
Lemma append_results_skips io raw base idx mb hdr w :
  lines_to_actually_write raw base idx mb hdr w = [] ->
  append_results_to_csv_with_rollover io raw base idx mb hdr w
  = (WriterState (ws_idx (resolved base idx mb hdr w))
                 (final_headers_for_this_file raw base idx mb hdr w)
                 (ws_filename (resolved base idx mb hdr w)),
     prints (decision raw base idx mb hdr w).2 (initial_rollover base idx mb hdr w).2).
Proof.
  intros Hnil. rewrite append_results_stages.
  unfold lines_to_actually_write, final_headers_for_this_file in *.
  destruct (decision raw base idx mb hdr w) as [[lw fh] warns]. simpl in *.
  by subst lw.
Qed.

Lemma append_results_files io raw base idx mb hdr w :
  files (append_results_to_csv_with_rollover io raw base idx mb hdr w).2
  = match lines_to_actually_write raw base idx mb hdr w with
    | [] => files w
    | lines => files_after_write io (ws_filename (resolved base idx mb hdr w))
                                 lines (files w)
    end.
Proof.
  destruct (lines_to_actually_write raw base idx mb hdr w) as [|l ls] eqn:Hl.
  - rewrite append_results_skips by done. simpl.
    apply initial_rollover_files.
  - rewrite append_results_writes by (by rewrite Hl).
    rewrite write_and_check_files, Hl.
    by rewrite (proj1 (initial_rollover_files _ _ _ _ _)).
Qed.

Lemma append_results_filename io raw base idx mb hdr w :
  ws_filename (append_results_to_csv_with_rollover io raw base idx mb hdr w).1
  = ws_filename (resolved base idx mb hdr w).
Proof.
  destruct (lines_to_actually_write raw base idx mb hdr w) as [|l ls] eqn:Hl.
  - by rewrite append_results_skips.
  - rewrite append_results_writes by (by rewrite Hl).
    apply write_and_check_state.
Qed.

Lemma append_results_only_target io raw base idx mb hdr w path :
  path ≠ ws_filename (resolved base idx mb hdr w) ->
  files (append_results_to_csv_with_rollover io raw base idx mb hdr w).2 !! path
  = files w !! path.
Proof.
  intros Hp. rewrite append_results_files.
  destruct (lines_to_actually_write _ _ _ _ _ _); [done|].
  destruct io; simpl; by rewrite ?lookup_insert_ne.
Qed.

(** ** Properties of the rollover writer *)

(** C6 (as stated, refuted): a blank batch does not always leave the writer
    state as it was passed in.  With [out.csv] already larger than the limit,
    a call with a blank batch returns index 1 and no header for the inputs
    index 0 and header [VIN]. *)
Lemma C6_blank_batch_changes_state :
  let w := World {["out.csv" := "x"]} [] [] in
  let r := append_results_to_csv_with_rollover IoOk "  " "out" 0 0 (Some "VIN") w in
  all_space "  " = true
  ∧ r.1 = WriterState 1 None "out1.csv"
  ∧ ws_idx r.1 ≠ 0
  ∧ ws_header r.1 ≠ Some "VIN".
Proof. vm_compute. repeat split; discriminate. Qed.

(** C6 (amended): for a batch text that is empty or all white space, no
    file is written and the call returns exactly the state resolved by the
    initial rollover check, with the filename of the returned index: the
    inputs when the target file is not oversize, and index plus one with the
    header cleared when it is. *)
Theorem C6_blank_batch_returns_resolved_state io raw base idx mb hdr w :
  all_space raw = true ->
  let r := append_results_to_csv_with_rollover io raw base idx mb hdr w in
  files r.2 = files w
  ∧ r = initial_rollover base idx mb hdr w
  ∧ ws_filename r.1 = output_filename_of base (ws_idx r.1)
  ∧ (¬ oversize w (output_filename_of base idx) mb ->
     r = (WriterState idx hdr (output_filename_of base idx), w))
  ∧ (oversize w (output_filename_of base idx) mb ->
     r.1 = WriterState (idx + 1) None (output_filename_of base (idx + 1))).
Proof.
  intros Hblank r.
  assert (Hr : r = initial_rollover base idx mb hdr w).
  { unfold r, append_results_to_csv_with_rollover.
    destruct (initial_rollover base idx mb hdr w) as [s w1].
    by rewrite (strip_all_space _ Hblank). }
  rewrite Hr. split; [apply initial_rollover_files|]. split; [done|].
  split; [apply resolved_filename|]. split.
  - apply initial_rollover_fits.
  - intros Ho. by rewrite initial_rollover_oversize.
Qed.

Lemma C6_blank_batch_returns_resolved_state_witness :
  let w := World {["out.csv" := "x"]} [] [] in
  let r := append_results_to_csv_with_rollover IoOk "  " "out" 0 1 (Some "VIN") w in
  files r.2 = files w
  ∧ r = initial_rollover "out" 0 1 (Some "VIN") w
  ∧ ws_filename r.1 = output_filename_of "out" (ws_idx r.1)
  ∧ (¬ oversize w (output_filename_of "out" 0) 1 ->
     r = (WriterState 0 (Some "VIN") (output_filename_of "out" 0), w))
  ∧ (oversize w (output_filename_of "out" 0) 1 ->
     r.1 = WriterState (0 + 1) None (output_filename_of "out" (0 + 1))).
Proof.
  exact (C6_blank_batch_returns_resolved_state IoOk "  " "out" 0 1 (Some "VIN")
           (World {["out.csv" := "x"]} [] []) eq_refl).
Defined.

(** C8: the returned index is at least the input index and at most two
    above it; the oversize check before the write is made once, so when the
    file of the incremented index is oversize too, the call writes the whole
    batch to it and the check after the write advances the index again. *)
Theorem C8_index_advances_by_at_most_two :
  (∀ io raw base idx mb hdr w,
     let r := append_results_to_csv_with_rollover io raw base idx mb hdr w in
     idx ≤ ws_idx r.1 ≤ idx + 2)
  ∧ (∀ raw base idx mb hdr w h rest,
       batch_lines raw = h :: rest ->
       oversize w (output_filename_of base idx) mb ->
       oversize w (output_filename_of base (idx + 1)) mb ->
       let r := append_results_to_csv_with_rollover IoOk raw base idx mb hdr w in
       let target := output_filename_of base (idx + 1) in
       r.1 = WriterState (idx + 2) None target
       ∧ files r.2
         = <[target := default "" (files w !! target) +:+ written_text (h :: rest)]>
             (files w)).
Proof.
  split.
  - intros io raw base idx mb hdr w r.
    assert (Hs : idx ≤ ws_idx (resolved base idx mb hdr w) ≤ idx + 1).
    { destruct (resolved_cases base idx mb hdr w) as [[_ ->]|[_ ->]]; simpl; lia. }
    unfold r.
    destruct (lines_to_actually_write raw base idx mb hdr w) as [|l ls] eqn:Hl.
    + rewrite append_results_skips by done. simpl. lia.
    + rewrite append_results_writes by (by rewrite Hl).
      pose proof (write_and_check_state io mb (ws_idx (resolved base idx mb hdr w))
        (final_headers_for_this_file raw base idx mb hdr w)
        (ws_filename (resolved base idx mb hdr w))
        (lines_to_actually_write raw base idx mb hdr w)
        (initial_rollover base idx mb hdr w).2) as [_ Hw].
      rewrite Hl in *. lia.
  - intros raw base idx mb hdr w h rest Hb Ho Ho' r target.
    assert (Hres : resolved base idx mb hdr w = WriterState (idx + 1) None target).
    { unfold resolved. by rewrite initial_rollover_oversize. }
    assert (Hd : decision raw base idx mb hdr w = (h :: rest, Some h, [])).
    { apply decision_fresh; [done|]. right. by rewrite Hres. }
    assert (Hl : lines_to_actually_write raw base idx mb hdr w = h :: rest).
    { unfold lines_to_actually_write. by rewrite Hd. }
    split.
    + unfold r. rewrite append_results_writes by (by rewrite Hl).
      rewrite Hl, Hres. cbn [ws_idx ws_filename].
      rewrite write_and_check_ok. cbv zeta. rewrite getsize_append_file.
      assert (Hsz : getsize (initial_rollover base idx mb hdr w).2 target = getsize w target).
      { unfold getsize. by rewrite (proj1 (initial_rollover_files _ _ _ _ _)). }
      rewrite Hsz. destruct Ho' as [_ Hbig]. fold target in Hbig.
      rewrite (proj2 (Z.ltb_lt _ _)) by lia. simpl. f_equal. lia.
    + unfold r. rewrite append_results_files, Hl, Hres. done.
Qed.

Lemma C8_index_advances_by_at_most_two_witness :
  let w := World {["out.csv" := "x"; "out1.csv" := "y"]} [] [] in
  let r := append_results_to_csv_with_rollover IoOk "VIN" "out" 0 0 None w in
  0 ≤ ws_idx r.1 ≤ 0 + 2
  ∧ r.1 = WriterState (0 + 2) None (output_filename_of "out" (0 + 1))
  ∧ files r.2
    = <[output_filename_of "out" (0 + 1)
        := default "" (files w !! output_filename_of "out" (0 + 1))
           +:+ written_text ["VIN"]]> (files w).
Proof.
  split.
  - exact (proj1 C8_index_advances_by_at_most_two IoOk "VIN" "out" 0 0 None
             (World {["out.csv" := "x"; "out1.csv" := "y"]} [] [])).
  - apply (proj2 C8_index_advances_by_at_most_two "VIN" "out" 0 0 None
             (World {["out.csv" := "x"; "out1.csv" := "y"]} [] []) "VIN" []).
    + reflexivity.
    + split; [reflexivity | vm_compute; reflexivity].
    + split; [reflexivity | vm_compute; reflexivity].
Defined.

(** C4: when the append is attempted and raises, the exception is caught
    and reported, the call returns, and it returns the index and header as
    they stood just before the write: the resolved index and the header
    decided for the file (the index is not advanced, the header not cleared). *)
Theorem C4_failed_append_keeps_prewrite_state io e raw base idx mb hdr w :
  lines_to_actually_write raw base idx mb hdr w ≠ [] ->
  io_exn io = Some e ->
  let r := append_results_to_csv_with_rollover io raw base idx mb hdr w in
  let s := resolved base idx mb hdr w in
  r.1 = WriterState (ws_idx s) (final_headers_for_this_file raw base idx mb hdr w)
                    (ws_filename s)
  ∧ last (stdout r.2) = Some (report_save_error (ws_filename s) e)
  ∧ (∀ msg, e = IOError msg -> IOErrorSaving (ws_filename s) msg ∈ stdout r.2).
Proof.
  intros Hne He r s. unfold r. rewrite append_results_writes by done.
  destruct (write_and_check_failed io e mb (ws_idx s)
              (final_headers_for_this_file raw base idx mb hdr w) (ws_filename s)
              (lines_to_actually_write raw base idx mb hdr w)
              (initial_rollover base idx mb hdr w).2 He) as [H1 H2].
  fold s. rewrite H1, H2. split; [done|]. split; [apply last_snoc|].
  intros msg ->. apply elem_of_app. right. simpl. apply list_elem_of_singleton. done.
Qed.

Lemma C4_failed_append_keeps_prewrite_state_witness :
  let w := World ∅ [] [] in
  let r := append_results_to_csv_with_rollover (IoOpenFails (IOError "denied"))
             "VIN" "out" 0 2 None w in
  r.1 = WriterState 0 (Some "VIN") "out.csv"
  ∧ last (stdout r.2) = Some (IOErrorSaving "out.csv" "denied").
Proof.
  pose proof (C4_failed_append_keeps_prewrite_state (IoOpenFails (IOError "denied"))
                (IOError "denied") "VIN" "out" 0 2 None (World ∅ [] [])) as H.
  destruct H as (H1 & H2 & _); [vm_compute; discriminate | reflexivity |].
  split; [exact H1 | exact H2].
Defined.


(** C1 (as stated, refuted): the header does not appear exactly once in
    every file.  When the target file exists and no header is recorded for it,
    as at the first batch of a run, the whole batch is appended, header
    included: below, [out.csv] already holds the header [VIN] and one row, and
    after the call it holds the header twice. *)
Lemma C1_header_written_again_in_existing_file :
  let nl := os_linesep in
  let w := World {["out.csv" := "VIN" +:+ nl +:+ "1,A" +:+ nl]} [] [] in
  let r := append_results_to_csv_with_rollover IoOk ("VIN" +:+ nl +:+ "2,B")
             "out" 0 2 None w in
  files r.2 !! "out.csv"
  = Some ("VIN" +:+ nl +:+ "1,A" +:+ nl +:+ "VIN" +:+ nl +:+ "2,B" +:+ nl)
  ∧ map Py.rstrip_crlf (Py.readlines (default "" (files r.2 !! "out.csv")))
    = ["VIN"; "1,A"; "VIN"; "2,B"]
  ∧ r.1 = WriterState 0 (Some "VIN") "out.csv".
Proof.
  cbv zeta. repeat match goal with |- _ ∧ _ => split end; vm_compute; reflexivity.
Qed.

(** C1 (amended): for a non-blank batch with lines [h :: rest]: when the
    resolved target file does not exist or no header is recorded for it, the
    whole batch (header and data) is appended to what the file holds and [h]
    becomes the header kept for the file; when the file exists and [h] equals
    the recorded header, only [rest] is appended, and nothing at all when
    [rest] is empty.  Hence, in a file that did not exist before, two
    successive batches with the same header leave the header once, followed
    by the data lines of both in call order, provided the file is within the
    size limit (in bytes on disk) after the first write. *)
Theorem C1_header_written_once_in_a_new_file :
  (∀ raw base idx mb hdr w h rest,
     batch_lines raw = h :: rest ->
     let s := resolved base idx mb hdr w in
     let target := ws_filename s in
     let before := default "" (files w !! target) in
     (path_exists w target = false ∨ Py.truthy (ws_header s) = false
      ∨ Py.truthy hdr = false ->
      lines_to_actually_write raw base idx mb hdr w = h :: rest
      ∧ final_headers_for_this_file raw base idx mb hdr w = Some h
      ∧ files (append_results_to_csv_with_rollover IoOk raw base idx mb hdr w).2
        = <[target := before +:+ written_text (h :: rest)]> (files w))
     ∧ (path_exists w target = true -> ws_header s = Some h ->
        lines_to_actually_write raw base idx mb hdr w = rest
        ∧ final_headers_for_this_file raw base idx mb hdr w = Some h
        ∧ (rest ≠ [] ->
           files (append_results_to_csv_with_rollover IoOk raw base idx mb hdr w).2
           = <[target := before +:+ written_text rest]> (files w))
        ∧ (rest = [] -> ∀ io,
           files (append_results_to_csv_with_rollover io raw base idx mb hdr w).2
           = files w)))
  ∧ (∀ raw1 raw2 base idx mb hdr w h data1 data2,
       batch_lines raw1 = h :: data1 ->
       batch_lines raw2 = h :: data2 ->
       let target := output_filename_of base idx in
       path_exists w target = false ->
       let r1 := append_results_to_csv_with_rollover IoOk raw1 base idx mb hdr w in
       getsize r1.2 target ≤ max_size_bytes mb ->
       let r2 := append_results_to_csv_with_rollover IoOk raw2 base
                   (ws_idx r1.1) mb (ws_header r1.1) r1.2 in
       ws_filename r1.1 = target ∧ ws_filename r2.1 = target
       ∧ files r2.2 = <[target := written_text (h :: data1 ++ data2)]> (files w)).
Proof.
  split.
  - intros raw base idx mb hdr w h rest Hb s target before. split.
    + intros Hc.
      assert (Hd : decision raw base idx mb hdr w = (h :: rest, Some h, [])).
      { apply decision_fresh; [done|]. destruct Hc as [Hc|[Hc|Hc]]; [by left|by right|].
        right. by apply resolved_header_falsy. }
      unfold lines_to_actually_write, final_headers_for_this_file.
      rewrite append_results_files. unfold lines_to_actually_write. by rewrite Hd.
    + intros Hex Hh.
      pose proof (decision_same_header _ _ _ _ _ _ _ _ Hb Hex Hh) as Hd.
      unfold lines_to_actually_write, final_headers_for_this_file.
      rewrite Hd. simpl. split; [done|]. split; [done|]. split.
      * intros Hne. rewrite append_results_files. unfold lines_to_actually_write.
        rewrite Hd. simpl. by destruct rest.
      * intros -> io. rewrite append_results_files. unfold lines_to_actually_write.
        by rewrite Hd.
  - intros raw1 raw2 base idx mb hdr w h data1 data2 Hb1 Hb2 target Hnew r1 Hfit r2.
    assert (Hno : ¬ oversize w target mb) by (intros [He _]; congruence).
    assert (Hres : resolved base idx mb hdr w = WriterState idx hdr target).
    { unfold resolved. by rewrite initial_rollover_fits. }
    assert (Hd1 : decision raw1 base idx mb hdr w = (h :: data1, Some h, [])).
    { apply decision_fresh; [done|]. left. by rewrite Hres. }
    assert (Hnone : files w !! target = None).
    { unfold path_exists in Hnew. apply bool_decide_eq_false in Hnew.
      by apply eq_None_not_Some. }
    set (w1 := append_file target (written_text (h :: data1)) w).
    assert (Hw : r1 = write_and_check IoOk mb idx (Some h) target (h :: data1) w).
    { unfold r1. rewrite append_results_writes
        by (unfold lines_to_actually_write; by rewrite Hd1).
      unfold lines_to_actually_write, final_headers_for_this_file.
      by rewrite Hd1, Hres, initial_rollover_fits. }
    rewrite write_and_check_ok in Hw. cbv zeta in Hw. fold w1 in Hw.
    assert (Hsz : getsize r1.2 target = getsize w1 target).
    { rewrite Hw. by case_match. }
    rewrite Hsz in Hfit.
    assert (Hr1 : r1 = (WriterState idx (Some h) target, w1)).
    { rewrite Hw. by rewrite (proj2 (Z.ltb_ge _ _)) by done. }
    assert (Hf1 : files w1 !! target = Some (written_text (h :: data1))).
    { unfold w1, append_file. simpl. rewrite lookup_insert_eq, Hnone. done. }
    assert (Hno1 : ¬ oversize w1 target mb) by (intros [_ Hbig]; lia).
    assert (Hres1 : resolved base idx mb (Some h) w1 = WriterState idx (Some h) target).
    { unfold resolved. by rewrite initial_rollover_fits. }
    assert (Hd2 : decision raw2 base idx mb (Some h) w1 = (data2, Some h, [])).
    { apply decision_same_header; [done| |by rewrite Hres1].
      rewrite Hres1. simpl. unfold path_exists. rewrite Hf1.
      by apply bool_decide_eq_true. }
    split; [by rewrite Hr1|]. unfold r2. rewrite Hr1. cbn [fst snd ws_idx ws_header].
    split; [by rewrite append_results_filename, Hres1|].
    rewrite append_results_files. unfold lines_to_actually_write.
    rewrite Hd2, Hres1. cbn [fst ws_filename].
    assert (Hfw1 : files w1 = <[target := written_text (h :: data1)]> (files w)).
    { unfold w1, append_file. simpl. by rewrite Hnone. }
    destruct data2 as [|d ds].
    + by rewrite app_nil_r.
    + cbn [files_after_write]. rewrite Hf1. cbn [default].
      rewrite Hfw1, insert_insert_eq.
      by rewrite app_comm_cons, (written_text_app (h :: data1) (d :: ds)).
Qed.

Lemma C1_header_written_once_in_a_new_file_witness :
  let nl := os_linesep in
  let r1 := append_results_to_csv_with_rollover IoOk ("VIN,Make" +:+ nl +:+ "1,A")
              "out" 0 2 None (World ∅ [] []) in
  let r2 := append_results_to_csv_with_rollover IoOk ("VIN,Make" +:+ nl +:+ "2,B")
              "out" (ws_idx r1.1) 2 (ws_header r1.1) r1.2 in
  files r2.2
  = {[ "out.csv" := "VIN,Make" +:+ nl +:+ "1,A" +:+ nl +:+ "2,B" +:+ nl ]}.
Proof.
  pose proof (proj2 C1_header_written_once_in_a_new_file
                ("VIN,Make" +:+ os_linesep +:+ "1,A") ("VIN,Make" +:+ os_linesep +:+ "2,B")
                "out" 0 2 None (World ∅ [] []) "VIN,Make" ["1,A"] ["2,B"]) as H.
  destruct H as (_ & _ & H);
    [reflexivity | reflexivity | reflexivity | vm_compute; discriminate |].
  exact H.
Defined.

(** C3: when the target file exists and is already over the limit, the
    index is incremented and the header cleared before anything is decided or
    written, and the call writes to and returns the file of the new index;
    when, after a completed write, the file is over the limit, the returned
    index is incremented and the returned header cleared, while the returned
    filename is still the file written in this call, which is not the file
    of the returned index. *)
Theorem C3_rollover_before_and_after_write :
  (∀ io raw base idx mb hdr w,
     oversize w (output_filename_of base idx) mb ->
     let r := append_results_to_csv_with_rollover io raw base idx mb hdr w in
     let target := output_filename_of base (idx + 1) in
     resolved base idx mb hdr w = WriterState (idx + 1) None target
     ∧ ws_filename r.1 = target
     ∧ lines_to_actually_write raw base idx mb hdr w = batch_lines raw
     ∧ files r.2
       = match batch_lines raw with
         | [] => files w
         | lines => files_after_write io target lines (files w)
         end)
  ∧ (∀ raw base idx mb hdr w,
       lines_to_actually_write raw base idx mb hdr w ≠ [] ->
       let s := resolved base idx mb hdr w in
       let target := ws_filename s in
       let r := append_results_to_csv_with_rollover IoOk raw base idx mb hdr w in
       files r.2
       = <[target := default "" (files w !! target)
                     +:+ written_text (lines_to_actually_write raw base idx mb hdr w)]>
           (files w)
       ∧ ws_filename r.1 = target
       ∧ target = output_filename_of base (ws_idx s)
       ∧ (max_size_bytes mb < getsize r.2 target ->
          ws_idx r.1 = ws_idx s + 1 ∧ ws_header r.1 = None
          ∧ output_filename_of base (ws_idx r.1) ≠ ws_filename r.1)
       ∧ (getsize r.2 target ≤ max_size_bytes mb ->
          ws_idx r.1 = ws_idx s
          ∧ ws_header r.1 = final_headers_for_this_file raw base idx mb hdr w)).
Proof.
  split.
  - intros io raw base idx mb hdr w Ho r target.
    assert (Hres : resolved base idx mb hdr w = WriterState (idx + 1) None target).
    { unfold resolved. by rewrite initial_rollover_oversize. }
    assert (Hl : lines_to_actually_write raw base idx mb hdr w = batch_lines raw).
    { unfold lines_to_actually_write.
      destruct (batch_lines raw) as [|h rest] eqn:Hb.
      - by rewrite decision_blank.
      - rewrite (decision_fresh _ _ _ _ _ _ h rest); [done..|]. right. by rewrite Hres. }
    split; [done|]. split; [unfold r; by rewrite append_results_filename, Hres|].
    split; [done|]. unfold r. by rewrite append_results_files, Hl, Hres.
  - intros raw base idx mb hdr w Hne s target r.
    assert (Hf : files r.2
       = <[target := default "" (files w !! target)
                     +:+ written_text (lines_to_actually_write raw base idx mb hdr w)]>
           (files w)).
    { unfold r. rewrite append_results_files.
      by destruct (lines_to_actually_write raw base idx mb hdr w). }
    split; [done|]. split; [apply append_results_filename|].
    split; [apply resolved_filename|].
    assert (Hr : r = write_and_check IoOk mb (ws_idx s)
      (final_headers_for_this_file raw base idx mb hdr w) target
      (lines_to_actually_write raw base idx mb hdr w)
      (initial_rollover base idx mb hdr w).2).
    { unfold r. by rewrite append_results_writes. }
    rewrite write_and_check_ok in Hr. cbv zeta in Hr.
    set (w' := append_file target _ _) in Hr.
    assert (Hsz : getsize r.2 target = getsize w' target).
    { rewrite Hr. by case_match. }
    rewrite Hsz. split.
    + intros Hbig. rewrite Hr, (proj2 (Z.ltb_lt _ _)) by done. simpl.
      split; [done|]. split; [done|].
      pose proof (resolved_filename base idx mb hdr w) as Hrf.
      change (target = output_filename_of base (ws_idx s)) in Hrf.
      rewrite Hrf. intros H. by apply (output_filename_next base (ws_idx s)).
    + intros Hfit. by rewrite Hr, (proj2 (Z.ltb_ge _ _)) by done.
Qed.

Lemma C3_rollover_before_and_after_write_witness :
  let w := World {["out.csv" := "x"]} [] [] in
  let r := append_results_to_csv_with_rollover IoOk "VIN" "out" 0 0 (Some "VIN") w in
  resolved "out" 0 0 (Some "VIN") w = WriterState 1 None "out1.csv"
  ∧ ws_filename r.1 = "out1.csv"
  ∧ ws_idx r.1 = 2 ∧ ws_header r.1 = None.
Proof.
  pose proof (proj1 C3_rollover_before_and_after_write IoOk "VIN" "out" 0 0 (Some "VIN")
                (World {["out.csv" := "x"]} [] [])) as H1.
  destruct H1 as (H1 & H2 & _); [split; [reflexivity | vm_compute; reflexivity]|].
  pose proof (proj2 C3_rollover_before_and_after_write "VIN" "out" 0 0 (Some "VIN")
                (World {["out.csv" := "x"]} [] [])) as H3.
  destruct H3 as (_ & _ & _ & H3 & _); [vm_compute; discriminate|].
  destruct H3 as (H3 & H4 & _); [vm_compute; reflexivity|].
  split; [exact H1|]. split; [exact H2|]. split; [exact H3 | exact H4].
Defined.

(** ** Properties of the batch orchestrator *)

Lemma write_and_check_posted io mb idx fh path lines w :
  posted (write_and_check io mb idx fh path lines w).2 = posted w.
Proof. unfold write_and_check. destruct io; simpl; [by case_match|done..]. Qed.

Lemma append_results_posted io raw base idx mb hdr w :
  posted (append_results_to_csv_with_rollover io raw base idx mb hdr w).2 = posted w.
Proof.
  rewrite append_results_stages. cbv zeta.
  destruct (decision raw base idx mb hdr w) as [[lw fh] warns].
  destruct lw; [|rewrite write_and_check_posted]; simpl;
    apply initial_rollover_files.
Qed.

Lemma handle_response_posted E base mb i raw st :
  posted (wld (handle_response E base mb i raw st)) = posted (wld st).
Proof.
  unfold handle_response.
  pose proof (append_results_posted (io E i) raw base (current_file_index st) mb
                (current_headers st) (wld st)) as Hp.
  destruct (append_results_to_csv_with_rollover _ _ _ _ _ _ _) as [r w'].
  repeat case_match; simpl in *; done.
Qed.

Lemma process_batch_posted E vin_list base mb nb st i :
  posted (wld (process_batch E vin_list base mb nb st i))
  = posted (wld st) ++ [Py.join ";" (batch_vins_of vin_list i)].
Proof.
  unfold process_batch. cbv zeta.
  destruct (api E i _); [by rewrite handle_response_posted|done..].
Qed.

Lemma run_batches_posted E vin_list base mb batches st :
  posted (wld (run_batches E vin_list base mb batches st))
  = posted (wld st) ++ map (fun i => Py.join ";" (batch_vins_of vin_list i)) batches.
Proof.
  unfold run_batches. revert st.
  induction batches as [|i batches IH]; intros st; simpl.
  - by rewrite app_nil_r.
  - by rewrite IH, process_batch_posted, <- app_assoc.
Qed.

(** The slices of [n] successive batches starting at batch [k]. *)
Lemma batches_concat_from (vin_list : list string) (n k : nat) :
  concat (map (batch_vins_of vin_list) (seq k n))
  = take (n * batch_size) (drop (k * batch_size) vin_list).
Proof.
  revert k. induction n as [|n IH]; intros k; simpl; [done|].
  rewrite IH. unfold batch_vins_of.
  replace (S k * batch_size)%nat with (k * batch_size + batch_size)%nat by lia.
  rewrite <- drop_drop. by rewrite take_take_drop.
Qed.

Lemma num_batches_ceiling (vin_list : list string) :
  vin_list ≠ [] ->
  (length vin_list ≤ batch_size * num_batches_of vin_list < length vin_list + batch_size)%nat.
Proof.
  intros Hne. unfold num_batches_of, batch_size.
  assert (0 < length vin_list)%nat by (destruct vin_list; [done | simpl; lia]).
  pose proof (Nat.div_mod_eq (length vin_list + 50 - 1) 50) as Hd.
  pose proof (Nat.mod_upper_bound (length vin_list + 50 - 1) 50) as Hm.
  lia.
Qed.

Lemma batch_vins_length (vin_list : list string) (i : nat) :
  (i < num_batches_of vin_list)%nat ->
  (0 < length (batch_vins_of vin_list i) ≤ batch_size)%nat.
Proof.
  intros Hi. unfold batch_vins_of. rewrite length_take, length_drop.
  assert (Hne : vin_list ≠ []).
  { intros ->. unfold num_batches_of in Hi. simpl in Hi. lia. }
  pose proof (num_batches_ceiling vin_list Hne) as Hc. unfold batch_size in *. lia.
Qed.

Lemma decode_posts_batches E vin_list base mb w :
  vin_list ≠ [] ->
  posted (decode_vins_in_batches E vin_list base mb w).2
  = posted w ++ map (Py.join ";")
                    (map (batch_vins_of vin_list) (seq 0 (num_batches_of vin_list))).
Proof.
  intros Hne. unfold decode_vins_in_batches. destruct vin_list as [|v vs]; [done|].
  cbv zeta. set (st := run_batches _ _ _ _ _ _).
  assert (Hp : posted (wld st)
               = posted w ++ map (Py.join ";")
                   (map (batch_vins_of (v :: vs)) (seq 0 (num_batches_of (v :: vs))))).
  { unfold st. rewrite run_batches_posted. simpl. by rewrite map_map. }
  by case_bool_decide.
Qed.

(** C5: a non-empty list of [N] identifiers is cut into [ceil(N/50)]
    batches (the least number [k] with [N <= 50 k]); the batches are the
    successive slices of the list, so that their concatenation is the list
    itself; each holds between 1 and 50 identifiers; and the run posts, batch
    by batch, the identifiers of the batch joined with a semicolon: the
    identifiers in order with one [;] between two neighbours and none at
    either end, so that the list [A, B] is posted as the one payload [A;B]. *)
Theorem C5_batches_partition_the_list :
  (∀ E vin_list base mb w,
     vin_list ≠ [] ->
     let batches := map (batch_vins_of vin_list) (seq 0 (num_batches_of vin_list)) in
     (length vin_list ≤ 50 * num_batches_of vin_list < length vin_list + 50)%nat
     ∧ length batches = num_batches_of vin_list
     ∧ concat batches = vin_list
     ∧ (∀ i, (i < num_batches_of vin_list)%nat ->
             batches !! i = Some (take 50 (drop (i * 50) vin_list)))
     ∧ Forall (fun batch => (0 < length batch ≤ 50)%nat) batches
     ∧ posted (decode_vins_in_batches E vin_list base mb w).2
       = posted w ++ map (Py.join ";") batches)
  ∧ (∀ vin, Py.join ";" [vin] = vin)
  ∧ (∀ vin next rest,
       Py.join ";" (vin :: next :: rest) = vin +:+ ";" +:+ Py.join ";" (next :: rest))
  ∧ (∀ E base mb w,
       posted (decode_vins_in_batches E ["A"; "B"] base mb w).2 = posted w ++ ["A;B"]).
Proof.
  split; [|split; [done|split; [done|]]].
  - intros E vin_list base mb w Hne batches.
    pose proof (num_batches_ceiling vin_list Hne) as Hc. unfold batch_size in Hc.
    split; [done|]. split; [unfold batches; by rewrite length_map, length_seq|].
    split.
    { unfold batches. rewrite batches_concat_from. simpl. rewrite drop_0.
      apply take_ge. unfold batch_size. lia. }
    split.
    { intros i Hi. unfold batches. rewrite list_lookup_fmap.
      rewrite lookup_seq_lt by done. done. }
    split.
    { unfold batches. apply Forall_fmap, Forall_seq. intros i Hi. simpl.
      apply batch_vins_length. lia. }
    by apply decode_posts_batches.
  - intros E base mb w. by rewrite decode_posts_batches.
Qed.

Lemma C5_batches_partition_the_list_witness :
  let vin_list := replicate 101 "V" in
  let E := Env (fun _ _ => ApiRequestException "timeout") (fun _ => IoOk) in
  num_batches_of vin_list = 3%nat
  ∧ map length (map (batch_vins_of vin_list) (seq 0 3)) = [50; 50; 1]%nat
  ∧ concat (map (batch_vins_of vin_list) (seq 0 (num_batches_of vin_list))) = vin_list
  ∧ posted (decode_vins_in_batches E ["1HG"; "2FM"; "3VW"] "out" 2 (World ∅ [] [])).2
    = ["1HG;2FM;3VW"].
Proof.
  pose proof (proj1 C5_batches_partition_the_list
                (Env (fun _ _ => ApiRequestException "timeout") (fun _ => IoOk))
                (replicate 101 "V") "out" 2 (World ∅ [] [])) as H.
  destruct H as (_ & _ & H3 & _ & _ & _); [vm_compute; discriminate|].
  pose proof (proj1 C5_batches_partition_the_list
                (Env (fun _ _ => ApiRequestException "timeout") (fun _ => IoOk))
                ["1HG"; "2FM"; "3VW"] "out" 2 (World ∅ [] [])) as H'.
  destruct H' as (_ & _ & _ & _ & _ & H6); [discriminate|].
  split; [vm_compute; reflexivity|]. split; [vm_compute; reflexivity|].
  split; [exact H3|]. rewrite H6. vm_compute. reflexivity.
Defined.

Lemma nonblank_response (raw : string) (h : string) (rest : list string) :
  processed_lines_of raw = h :: rest ->
  Py.nonempty raw && Py.nonempty (Py.strip raw) = true.
Proof.
  rewrite <- batch_lines_processed. intros Hb.
  destruct (Py.nonempty (Py.strip raw)) eqn:Hs.
  - destruct raw; [done | by rewrite andb_true_r].
  - by rewrite (batch_lines_strip_empty _ Hs) in Hb.
Qed.

(** The loop body for a response that is one non-blank line. *)
Lemma handle_response_header_only E base mb i raw st h :
  processed_lines_of raw = [h] ->
  let r := append_results_to_csv_with_rollover (io E i) raw base (current_file_index st)
             mb (current_headers st) (wld st) in
  handle_response E base mb i raw st
  = LoopState (total_successfully_decoded_vins st) (ws_idx r.1)
              (adopt_header (ws_header r.1) [h])
              (if path_exists r.2 (ws_filename r.1)
               then {[ws_filename r.1]} ∪ written_files st else written_files st)
              (py_print (InfoHeaderOnly (i + 1) (Py.prefix 200 raw)) r.2).
Proof.
  intros Hp r. unfold handle_response.
  rewrite (nonblank_response _ _ _ Hp), Hp. simpl.
  unfold r. by destruct (append_results_to_csv_with_rollover _ _ _ _ _ _ _).
Qed.

(** After a header-only batch the writer returns no header only when it
    wrote the line and then rolled over. *)
Lemma header_only_unset io raw base idx mb hdr w h :
  batch_lines raw = [h] ->
  let r := append_results_to_csv_with_rollover io raw base idx mb hdr w in
  let s := resolved base idx mb hdr w in
  Py.truthy (ws_header r.1) = false ->
  io = IoOk
  ∧ lines_to_actually_write raw base idx mb hdr w = [h]
  ∧ max_size_bytes mb < getsize r.2 (ws_filename s)
  ∧ r.1 = WriterState (ws_idx s + 1) None (ws_filename s).
Proof.
  intros Hb r s Hunset.
  pose proof (batch_header_nonempty _ _ _ Hb) as Hh.
  pose proof (decision_unfold raw base idx mb hdr w h [] Hb) as Hd. fold s in Hd.
  unfold choose_lines in Hd.
  destruct (negb (path_exists w (ws_filename s)) || negb (Py.truthy (ws_header s))) eqn:Hc.
  - assert (Hl : lines_to_actually_write raw base idx mb hdr w = [h]).
    { unfold lines_to_actually_write. by rewrite Hd. }
    assert (Hf : final_headers_for_this_file raw base idx mb hdr w = Some h).
    { unfold final_headers_for_this_file. by rewrite Hd. }
    assert (Hr : r = write_and_check io mb (ws_idx s) (Some h) (ws_filename s) [h]
                       (initial_rollover base idx mb hdr w).2).
    { unfold r. rewrite append_results_writes by (by rewrite Hl). by rewrite Hl, Hf. }
    destruct io as [|e|n e|e];
      try (exfalso; rewrite Hr in Hunset; simpl in Hunset; congruence).
    split; [done|]. split; [done|].
    rewrite write_and_check_ok in Hr. cbv zeta in Hr.
    destruct (max_size_bytes mb <? getsize _ _) eqn:Hbig.
    + rewrite Hr. simpl. split; [|done]. by apply Z.ltb_lt.
    + exfalso. rewrite Hr in Hunset. simpl in Hunset. congruence.
  - exfalso. apply orb_false_elim in Hc as [_ Ht%negb_false_iff].
    assert (Hl : lines_to_actually_write raw base idx mb hdr w = []).
    { unfold lines_to_actually_write. rewrite Hd.
      case_bool_decide; [|done]. by case_bool_decide. }
    assert (Hf : final_headers_for_this_file raw base idx mb hdr w = ws_header s).
    { unfold final_headers_for_this_file. rewrite Hd.
      case_bool_decide; [|done]. by case_bool_decide. }
    unfold r in Hunset. rewrite append_results_skips in Hunset by done.
    simpl in Hunset. rewrite Hf in Hunset. congruence.
Qed.

(** C9: when the response of a batch is a single non-blank line [h] and the
    writer returns no header, the loop takes [h] as the running header.  In
    that situation the writer has written [h] to the file it returns and has
    rolled over, so [h] was not written to the file of the index the loop
    now holds.  A later batch is then compared with [h] although the target
    file does not contain it: in the run below, [out1.csv] ends with a data
    row and no header line. *)
Theorem C9_header_only_batch_sets_running_header :
  (∀ E base mb i raw st h,
     processed_lines_of raw = [h] ->
     let r := append_results_to_csv_with_rollover (io E i) raw base (current_file_index st)
                mb (current_headers st) (wld st) in
     Py.truthy (ws_header r.1) = false ->
     let st' := handle_response E base mb i raw st in
     let written := ws_filename r.1 in
     current_headers st' = Some h
     ∧ current_file_index st' = ws_idx r.1
     ∧ files (wld st')
       = <[written := default "" (files (wld st) !! written) +:+ h +:+ os_linesep]>
           (files (wld st))
     ∧ output_filename_of base (current_file_index st') ≠ written)
  ∧ (let nl := os_linesep in
     let E := Env (fun i _ => if bool_decide (i = 0%nat) then ApiOk "VIN"
                              else ApiOk ("VIN" +:+ nl +:+ "1,A"))
                  (fun _ => IoOk) in
     let vin_list := replicate 51 "V" in
     let w := World {["out1.csv" := ""]} [] [] in
     let st1 := state_before E vin_list "out" 0 w 1 in
     let r := decode_vins_in_batches E vin_list "out" 0 w in
     current_file_index st1 = 1
     ∧ current_headers st1 = Some "VIN"
     ∧ files (wld st1) = {["out.csv" := "VIN" +:+ nl; "out1.csv" := ""]}
     ∧ files r.2 = {["out.csv" := "VIN" +:+ nl; "out1.csv" := "1,A" +:+ nl]}).
Proof.
  split.
  - intros E base mb i raw st h Hp r Hunset st' written.
    assert (Hb : batch_lines raw = [h]) by (by rewrite batch_lines_processed).
    destruct (header_only_unset (io E i) raw base (current_file_index st) mb
                (current_headers st) (wld st) h Hb Hunset) as (Hio & Hl & Hbig & Hr).
    fold r in Hr, Hbig.
    unfold st'. rewrite handle_response_header_only with (h := h) by done.
    fold r. cbn [current_headers current_file_index wld].
    split.
    { unfold adopt_header. rewrite Hunset. simpl.
      by rewrite (batch_header_nonempty _ _ _ Hb). }
    split; [done|]. split.
    { change (files (py_print (InfoHeaderOnly (i + 1) (Py.prefix 200 raw)) r.2))
        with (files r.2).
      unfold r. rewrite append_results_files, Hl, Hio. cbn [files_after_write].
      unfold written, r. rewrite append_results_filename.
      simpl. by rewrite str_app_nil_r. }
    unfold written. rewrite Hr. cbn [ws_idx ws_filename].
    rewrite resolved_filename.
    intros H. symmetry in H. by apply output_filename_next in H.
  - cbv zeta. repeat match goal with |- _ ∧ _ => split end; vm_compute; reflexivity.
Qed.

Lemma C9_header_only_batch_sets_running_header_witness :
  let E := Env (fun _ _ => ApiOk "VIN") (fun _ => IoOk) in
  let st := initial_state (World ∅ [] []) in
  let st' := handle_response E "out" 0 0 "VIN" st in
  current_headers st' = Some "VIN"
  ∧ current_file_index st' = 1
  ∧ files (wld st') = {["out.csv" := "VIN" +:+ os_linesep]}.
Proof.
  pose proof (proj1 C9_header_only_batch_sets_running_header
                (Env (fun _ _ => ApiOk "VIN") (fun _ => IoOk)) "out" 0 0%nat "VIN"
                (initial_state (World ∅ [] [])) "VIN") as H.
  destruct H as (H1 & H2 & H3 & _); [reflexivity | reflexivity |].
  split; [exact H1|]. split; [exact H2 | exact H3].
Defined.

Lemma handle_response_written_files E base mb i raw st :
  written_files (handle_response E base mb i raw st)
  = added_by (writer_call_for E base mb i raw st) (written_files st).
Proof.
  unfold handle_response, writer_call_for.
  destruct (Py.nonempty raw && Py.nonempty (Py.strip raw)); simpl; [|done].
  destruct (0 <=? num_data_lines_of (processed_lines_of raw)); simpl; [|done].
  destruct (append_results_to_csv_with_rollover _ _ _ _ _ _ _) as [r w'].
  unfold added_by. cbn [fst snd].
  destruct (0 <? num_data_lines_of (processed_lines_of raw)); [done|].
  by destruct (bool_decide _ && bool_decide _).
Qed.

Lemma state_before_succ E vin_list base mb w n :
  state_before E vin_list base mb w (S n)
  = process_batch E vin_list base mb (num_batches_of vin_list)
                  (state_before E vin_list base mb w n) n.
Proof.
  unfold state_before, run_batches. by rewrite seq_S, fold_left_app.
Qed.

Lemma process_batch_written_files E vin_list base mb w n :
  written_files (state_before E vin_list base mb w (S n))
  = added_by (writer_call E vin_list base mb w n)
             (written_files (state_before E vin_list base mb w n)).
Proof.
  rewrite state_before_succ. unfold writer_call, process_batch. cbv zeta.
  destruct (api E n _); [|done..].
  by rewrite handle_response_written_files.
Qed.

Lemma written_files_characterised E vin_list base mb w n (f : string) :
  f ∈ written_files (state_before E vin_list base mb w n)
  ↔ ∃ i r, (i < n)%nat ∧ writer_call E vin_list base mb w i = Some r
           ∧ path_exists r.2 (ws_filename r.1) = true ∧ f = ws_filename r.1.
Proof.
  induction n as [|n IH].
  - split; [by intros ?%elem_of_empty | intros (i & r & Hi & _); lia].
  - rewrite process_batch_written_files. split.
    + intros Hf. unfold added_by in Hf.
      destruct (writer_call E vin_list base mb w n) as [r|] eqn:Hc.
      * destruct (path_exists r.2 (ws_filename r.1)) eqn:He.
        -- apply elem_of_union in Hf as [->%elem_of_singleton|Hf].
           ++ exists n, r. by auto with lia.
           ++ apply IH in Hf as (i & r' & Hi & H'). exists i, r'. by auto with lia.
        -- apply IH in Hf as (i & r' & Hi & H'). exists i, r'. by auto with lia.
      * apply IH in Hf as (i & r' & Hi & H'). exists i, r'. by auto with lia.
    + intros (i & r & Hi & Hc & He & ->).
      destruct (decide (i = n)) as [->|Hne].
      * unfold added_by. rewrite Hc, He. apply elem_of_union. left.
        by apply elem_of_singleton.
      * assert (Hin : ws_filename r.1 ∈ written_files (state_before E vin_list base mb w n)).
        { apply IH. exists i, r. by auto with lia. }
        unfold added_by. repeat case_match; [apply elem_of_union; by right|done..].
Qed.

Lemma writer_call_for_blank E base mb i raw st :
  all_space raw = true -> writer_call_for E base mb i raw st = None.
Proof.
  intros Hb. unfold writer_call_for. rewrite (strip_all_space _ Hb). simpl.
  by rewrite andb_false_r.
Qed.

(** C10 (as stated, refuted): a blank batch resolved against a file that is
    already on disk does not put that file in the returned list.  The run
    below has one batch whose response is blank, and [out.csv] exists before
    and after it; no writer call is made and the returned list is empty. *)
Lemma C10_blank_batch_adds_no_file :
  let E := Env (fun _ _ => ApiOk "   ") (fun _ => IoOk) in
  let w := World {["out.csv" := "VIN" +:+ os_linesep]} [] [] in
  let r := decode_vins_in_batches E ["V"] "out" 2 w in
  all_space "   " = true
  ∧ path_exists w "out.csv" = true
  ∧ path_exists r.2 "out.csv" = true
  ∧ writer_call E ["V"] "out" 2 w 0 = None
  ∧ r.1 = (0, []).
Proof.
  cbv zeta. repeat match goal with |- _ ∧ _ => split end; vm_compute; reflexivity.
Qed.

(** C10 (amended): a filename is in the returned list exactly when, for
    some batch, the writer was called, returned that filename, and the file
    exists right after the call, whether or not the call wrote to it.  A
    blank response never reaches the writer and adds nothing.  The list can
    hold a file this run never wrote: in the run below the second batch has
    another header and is dropped, yet [out1.csv], on disk before the run and
    left as it was, is returned. *)
Theorem C10_written_files_are_files_existing_after_a_call :
  (∀ E vin_list base mb w (f : string),
     f ∈ (decode_vins_in_batches E vin_list base mb w).1.2
     ↔ ∃ i r, (i < num_batches_of vin_list)%nat
              ∧ writer_call E vin_list base mb w i = Some r
              ∧ path_exists r.2 (ws_filename r.1) = true
              ∧ f = ws_filename r.1)
  ∧ (∀ E vin_list base mb w i text,
       api E i (Py.join ";" (batch_vins_of vin_list i)) = ApiOk text ->
       all_space text = true ->
       writer_call E vin_list base mb w i = None
       ∧ written_files (state_before E vin_list base mb w (S i))
         = written_files (state_before E vin_list base mb w i))
  ∧ (let nl := os_linesep in
     let E := Env (fun i _ => if bool_decide (i = 0%nat) then ApiOk "VIN,Make"
                              else ApiOk ("VIN,Model" +:+ nl +:+ "1,X"))
                  (fun _ => IoOk) in
     let vin_list := replicate 51 "V" in
     let w := World {["out1.csv" := ""]} [] [] in
     let r := decode_vins_in_batches E vin_list "out" 0 w in
     (∃ call, writer_call E vin_list "out" 0 w 1 = Some call
              ∧ ws_filename call.1 = "out1.csv"
              ∧ files call.2 !! "out1.csv" = files w !! "out1.csv")
     ∧ "out1.csv" ∈ r.1.2
     ∧ files r.2 !! "out1.csv" = files w !! "out1.csv").
Proof.
  split; [|split].
  - intros E vin_list base mb w f. unfold decode_vins_in_batches.
    destruct vin_list as [|v vs].
    + simpl. split; [by intros ?%elem_of_nil | intros (i & r & Hi & _)].
      unfold num_batches_of in Hi. simpl in Hi. lia.
    + cbv zeta. cbn [fst snd]. rewrite elem_of_elements.
      apply (written_files_characterised E (v :: vs) base mb w).
  - intros E vin_list base mb w i text Hapi Hblank.
    assert (Hc : writer_call E vin_list base mb w i = None).
    { unfold writer_call. rewrite Hapi. by apply writer_call_for_blank. }
    split; [done|]. by rewrite process_batch_written_files, Hc.
  - cbv zeta. split; [|split].
    + eexists. split; [vm_compute; reflexivity|]. split; vm_compute; reflexivity.
    + vm_compute. apply list_elem_of_In. simpl. by auto.
    + vm_compute. reflexivity.
Qed.

Lemma C10_written_files_are_files_existing_after_a_call_witness :
  let E := Env (fun _ _ => ApiOk "   ") (fun _ => IoOk) in
  let w := World {["out.csv" := "VIN" +:+ os_linesep]} [] [] in
  writer_call E ["V"] "out" 2 w 0 = None
  ∧ written_files (state_before E ["V"] "out" 2 w 1)
    = written_files (state_before E ["V"] "out" 2 w 0).
Proof.
  exact (proj1 (proj2 C10_written_files_are_files_existing_after_a_call)
           (Env (fun _ _ => ApiOk "   ") (fun _ => IoOk)) ["V"] "out" 2
           (World {["out.csv" := "VIN" +:+ os_linesep]} [] []) 0%nat "   "
           eq_refl eq_refl).
Defined.

(** ** Properties of the cleanup pass *)

Lemma all_space_app (s t : string) : all_space (s +:+ t) = all_space s && all_space t.
Proof.
  induction s as [|c s IH]; [done|].
  rewrite str_app_cons. simpl. by rewrite IH, andb_assoc.
Qed.

Lemma all_space_lstrip (s : string) : all_space (Py.lstrip s) = all_space s.
Proof.
  induction s as [|c s IH]; [done|]. simpl.
  destruct (Py.isspace c) eqn:Hc; simpl; [done | by rewrite Hc].
Qed.

Lemma nonempty_rstrip (s : string) : Py.nonempty (Py.rstrip s) = negb (all_space s).
Proof.
  induction s as [|c s IH]; [done|]. simpl.
  destruct (Py.rstrip s) eqn:Hr; destruct (all_space s); simpl in *;
    try discriminate; by destruct (Py.isspace c).
Qed.

Lemma not_blank_all_space (s : string) : not_blank s = negb (all_space s).
Proof. unfold not_blank, Py.strip. by rewrite nonempty_rstrip, all_space_lstrip. Qed.

Lemma is_crlf_isspace (c : ascii) : Py.is_crlf c = true -> Py.isspace c = true.
Proof.
  unfold Py.is_crlf. intros [H|H]%orb_prop; apply bool_decide_eq_true in H; by subst.
Qed.

Lemma all_space_rstrip_crlf (s : string) : all_space (Py.rstrip_crlf s) = all_space s.
Proof.
  induction s as [|c s IH]; [done|]. simpl.
  destruct (Py.rstrip_crlf s) eqn:Hr.
  - simpl in IH. rewrite <- IH, andb_true_r.
    destruct (Py.is_crlf c) eqn:Hc; simpl.
    + by rewrite (is_crlf_isspace _ Hc).
    + by rewrite andb_true_r.
  - simpl in *. by rewrite IH.
Qed.

Lemma not_blank_normalize_ending (line : string) :
  not_blank (normalize_ending line) = not_blank line.
Proof.
  rewrite !not_blank_all_space. unfold normalize_ending.
  by rewrite all_space_app, all_space_rstrip_crlf, andb_true_r.
Qed.

Lemma rstrip_crlf_body (b : string) : line_body b = true -> Py.rstrip_crlf b = b.
Proof.
  induction b as [|c b IH]; [done|]. simpl.
  intros [Hc Hb]%andb_prop. rewrite (IH Hb).
  apply negb_true_iff in Hc. rewrite Hc. by destruct b.
Qed.

Lemma rstrip_crlf_snoc (s : string) (c : ascii) :
  Py.is_crlf c = true -> Py.rstrip_crlf (s +:+ String c "") = Py.rstrip_crlf s.
Proof.
  intros Hc. induction s as [|a s IH].
  - simpl. by rewrite Hc.
  - rewrite str_app_cons. simpl. by rewrite IH.
Qed.

Lemma rstrip_crlf_normalize_ending (line : string) :
  line_body (Py.rstrip_crlf line) = true ->
  Py.rstrip_crlf (normalize_ending line) = Py.rstrip_crlf line.
Proof.
  intros Hb. unfold normalize_ending, os_linesep.
  rewrite rstrip_crlf_snoc by done. by apply rstrip_crlf_body.
Qed.

Lemma universal_newlines_no_cr (s : string) : no_cr (Py.universal_newlines s) = true.
Proof.
  cut (no_cr (Py.universal_newlines s) = true
       ∧ ∀ c, no_cr (Py.universal_newlines (String c s)) = true); [by intros []|].
  induction s as [|a s [IH1 IH2]].
  - split; [done|]. intros c. simpl. by case_bool_decide as Hc; simpl; rewrite ?Hc;
      [|rewrite bool_decide_eq_false_2 by done].
  - split; [apply IH2|]. intros c.
    change (Py.universal_newlines (String c (String a s)))
      with (if bool_decide (c = Py.CR)
            then if bool_decide (a = Py.LF)
                 then String Py.LF (Py.universal_newlines s)
                 else String Py.LF (Py.universal_newlines (String a s))
            else String c (Py.universal_newlines (String a s))).
    case_bool_decide as Hc.
    + case_bool_decide; cbn [no_cr]; by rewrite ?IH1, ?IH2.
    + cbn [no_cr]. by rewrite IH2, bool_decide_eq_false_2.
Qed.

Lemma universal_newlines_line (b rest : string) :
  line_body b = true ->
  Py.universal_newlines (b +:+ os_linesep +:+ rest)
  = b +:+ os_linesep +:+ Py.universal_newlines rest.
Proof.
  induction b as [|c b IH]; [done|]. simpl.
  intros [Hc Hb]%andb_prop. rewrite !str_app_cons.
  apply negb_true_iff, orb_false_elim in Hc as [Hcr _].
  cbn [Py.universal_newlines]. rewrite Hcr. by rewrite IH.
Qed.

Lemma keepends_line (b rest : string) :
  line_body b = true ->
  Py.keepends (b +:+ os_linesep +:+ rest) = (b +:+ os_linesep) :: Py.keepends rest.
Proof.
  induction b as [|c b IH]; [done|]. simpl.
  intros [Hc Hb]%andb_prop. rewrite !str_app_cons.
  apply negb_true_iff, orb_false_elim in Hc as [_ Hlf].
  cbn [Py.keepends]. rewrite Hlf. by rewrite IH.
Qed.

(** Every line that [readlines] returns is a body, followed or not by LF. *)
Lemma keepends_lines (s : string) :
  no_cr s = true ->
  Forall (fun l => ∃ b, line_body b = true ∧ (l = b ∨ l = b +:+ os_linesep))
         (Py.keepends s).
Proof.
  induction s as [|c s IH]; [by constructor|]. simpl.
  intros [Hc Hs]%andb_prop. specialize (IH Hs).
  apply negb_true_iff in Hc.
  destruct (bool_decide (c = Py.LF)) eqn:Hlf.
  - constructor; [|done]. exists "". by auto.
  - assert (Hb : Py.is_crlf c = false).
    { unfold Py.is_crlf. by rewrite Hc, Hlf. }
    destruct (Py.keepends s) as [|l ls].
    + constructor; [|done]. exists (String c ""). simpl. rewrite Hb. by auto.
    + inversion IH as [|? ? (b & Hbody & Hl) Hls]; subst.
      constructor; [|done]. exists (String c b). simpl. rewrite Hb, Hbody.
      split; [done|]. by destruct Hl as [->| ->]; auto.
Qed.

Lemma readlines_bodies (content : string) :
  Forall (fun l => line_body (Py.rstrip_crlf l) = true) (Py.readlines content).
Proof.
  unfold Py.readlines.
  eapply Forall_impl; [apply keepends_lines, universal_newlines_no_cr|].
  intros l (b & Hb & [->| ->]).
  - by rewrite rstrip_crlf_body.
  - unfold os_linesep. rewrite rstrip_crlf_snoc by done. by rewrite rstrip_crlf_body.
Qed.

Lemma concat_empty_cons (x : string) (xs : list string) :
  String.concat "" (x :: xs) = x +:+ String.concat "" xs.
Proof. destruct xs; simpl; [by rewrite str_app_nil_r | done]. Qed.

(** Reading back what the pass has written gives the lines written. *)
Lemma readlines_normalized (lines : list string) :
  Forall (fun l => line_body (Py.rstrip_crlf l) = true) lines ->
  Py.readlines (String.concat "" (map normalize_ending lines))
  = map normalize_ending lines.
Proof.
  unfold Py.readlines. induction lines as [|l ls IH]; [done|].
  intros HF. inversion HF as [|? ? Hl Hls]; subst.
  rewrite map_cons, concat_empty_cons. unfold normalize_ending at 1 3.
  rewrite str_app_assoc, universal_newlines_line, keepends_line by done.
  by rewrite IH.
Qed.

Lemma filter_all_length {A} (P : A -> Prop) `{∀ x, Decision (P x)} (l : list A) :
  length (filter P l) = length l -> filter P l = l.
Proof.
  induction l as [|x l IH]; [done|].
  destruct (decide (P x)) as [Hx|Hx].
  - rewrite filter_cons_True by done. simpl. intros [= Hl]. by rewrite IH.
  - rewrite filter_cons_False by done. simpl. intros Hl.
    pose proof (length_filter P l). lia.
Qed.

Lemma filter_all {A} (P : A -> Prop) `{∀ x, Decision (P x)} (l : list A) :
  Forall P l -> filter P l = l.
Proof.
  induction 1 as [|x l Hx Hl IH]; [done|]. by rewrite filter_cons_True, IH.
Qed.

(** The lines of the cleaned content: the non-blank lines, in order. *)
Lemma readlines_cleaned_content (content : string) :
  let kept := filter (fun line => not_blank line) (Py.readlines content) in
  (cleaned_content content = content ∧ kept = Py.readlines content)
  ∨ (cleaned_content content ≠ content
     ∧ Py.readlines (cleaned_content content) = map normalize_ending kept).
Proof.
  intros kept. unfold cleaned_content. fold kept.
  case_bool_decide as Hlen.
  - left. split; [done|]. by apply filter_all_length.
  - destruct (decide (String.concat "" (map normalize_ending kept) = content)) as [He|He].
    + left. split; [done|]. exfalso. apply Hlen.
      assert (Hk : Forall (fun l => line_body (Py.rstrip_crlf l) = true) kept).
      { apply Forall_forall. intros l [_ Hl]%list_elem_of_filter.
        by apply (proj1 (Forall_forall _ _) (readlines_bodies content)). }
      pose proof (readlines_normalized kept Hk) as Hr. rewrite He in Hr.
      rewrite <- (length_map normalize_ending kept). by f_equal.
    + right. split; [done|]. apply readlines_normalized.
      apply Forall_forall. intros l [_ Hl]%list_elem_of_filter.
      by apply (proj1 (Forall_forall _ _) (readlines_bodies content)).
Qed.

Lemma cleaned_content_idempotent (content : string) :
  cleaned_content (cleaned_content content) = cleaned_content content.
Proof.
  destruct (readlines_cleaned_content content) as [[He _]|[_ Hr]].
  - by rewrite He.
  - unfold cleaned_content at 1. rewrite Hr.
    rewrite filter_all; [by rewrite bool_decide_eq_true_2|].
    apply Forall_forall. intros l (k & -> & [Hk _]%list_elem_of_filter)%list_elem_of_fmap.
    by rewrite not_blank_normalize_ending.
Qed.

Lemma remove_blank_rows_files (path : string) (w : world) :
  files (remove_blank_rows_from_file CleanOk path w)
  = match files w !! path with
    | Some content => <[path := cleaned_content content]> (files w)
    | None => files w
    end.
Proof.
  unfold remove_blank_rows_from_file, path_exists, cleaned_content.
  destruct (files w !! path) as [content|] eqn:Hc; simpl.
  -     destruct (bool_decide _); simpl; [by rewrite insert_id | done].
  - done.
Qed.

(** C7: the cleanup pass is idempotent on the file system; the lines of the
    file after the pass are the lines of the file before it that are
    non-blank after trimming, in the same order (up to their line endings);
    a file that does not exist is skipped with a notice; no rewrite is made
    when no line is blank; and no other file is touched. *)
Theorem C7_cleanup_is_idempotent :
  (∀ path w,
     let once := remove_blank_rows_from_file CleanOk path w in
     files (remove_blank_rows_from_file CleanOk path once) = files once)
  ∧ (∀ path w content,
       files w !! path = Some content ->
       ∃ after,
         files (remove_blank_rows_from_file CleanOk path w) !! path = Some after
         ∧ map Py.rstrip_crlf (Py.readlines after)
           = map Py.rstrip_crlf
               (filter (fun line => not_blank line) (Py.readlines content)))
  ∧ (∀ io path w,
       path_exists w path = false ->
       remove_blank_rows_from_file io path w = py_print (PostNotFound path) w)
  ∧ (∀ path w content,
       files w !! path = Some content ->
       Forall (fun line => not_blank line = true) (Py.readlines content) ->
       remove_blank_rows_from_file CleanOk path w = py_print (PostNoBlankRows path) w)
  ∧ (∀ io path w other,
       other ≠ path ->
       files (remove_blank_rows_from_file io path w) !! other = files w !! other).
Proof.
  split; [|split; [|split; [|split]]].
  - intros path w once. unfold once. rewrite !remove_blank_rows_files.
    destruct (files w !! path) as [content|] eqn:Hc.
    + rewrite lookup_insert_eq, insert_insert_eq.
      by rewrite cleaned_content_idempotent.
    + by rewrite Hc.
  - intros path w content Hc. exists (cleaned_content content).
    rewrite remove_blank_rows_files, Hc, lookup_insert_eq. split; [done|].
    destruct (readlines_cleaned_content content) as [[He Hk]|[_ Hr]].
    + by rewrite He, Hk.
    + rewrite Hr, map_map. apply map_ext_in. intros l Hl.
      apply rstrip_crlf_normalize_ending.
      apply list_elem_of_In, list_elem_of_filter in Hl as [_ Hl].
      by apply (proj1 (Forall_forall _ _) (readlines_bodies content)).
  - intros io path w He. unfold remove_blank_rows_from_file. by rewrite He.
  - intros path w content Hc Hall. unfold remove_blank_rows_from_file, path_exists.
    rewrite Hc. rewrite bool_decide_eq_true_2 by (by eexists). simpl.
    rewrite filter_all; [by rewrite bool_decide_eq_true_2|].
    eapply Forall_impl; [exact Hall|]. intros l Hl. by rewrite Hl.
  - intros io path w other Hne. unfold remove_blank_rows_from_file.
    destruct (path_exists w path); simpl; [|done].
    destruct io; simpl; try done;
      destruct (bool_decide _); simpl; by rewrite ?lookup_insert_ne.
Qed.

Lemma C7_cleanup_is_idempotent_witness :
  let nl := os_linesep in
  let w := World {["out.csv" := "VIN" +:+ nl +:+ "  " +:+ nl +:+ "1,A"]} [] [] in
  ∃ after,
    files (remove_blank_rows_from_file CleanOk "out.csv" w) !! "out.csv" = Some after
    ∧ map Py.rstrip_crlf (Py.readlines after) = ["VIN"; "1,A"].
Proof.
  pose proof (proj1 (proj2 C7_cleanup_is_idempotent) "out.csv"
                (World {["out.csv" := "VIN" +:+ os_linesep +:+ "  " +:+ os_linesep +:+ "1,A"]}
                       [] [])
                ("VIN" +:+ os_linesep +:+ "  " +:+ os_linesep +:+ "1,A")) as H.
  destruct H as (after & H1 & H2); [vm_compute; reflexivity|].
  exists after. split; [exact H1|]. rewrite H2. vm_compute. reflexivity.
Defined.

(** ** More on the normalisation of a response *)

Lemma all_space_rstrip (s : string) : all_space (Py.rstrip s) = all_space s.
Proof.
  induction s as [|c s IH]; [done|]. simpl.
  destruct (Py.rstrip s) eqn:Hr; simpl in *.
  - rewrite <- IH, andb_true_r. destruct (Py.isspace c) eqn:Hc; simpl; [done|].
    by rewrite Hc.
  - by rewrite IH.
Qed.

Lemma all_space_strip (s : string) : all_space (Py.strip s) = all_space s.
Proof. unfold Py.strip. by rewrite all_space_rstrip, all_space_lstrip. Qed.

Lemma is_linebreak_isspace (c : ascii) : Py.is_linebreak c = true -> Py.isspace c = true.
Proof.
  unfold Py.is_linebreak, Py.isspace. generalize (N_of_ascii c). intros n H.
  repeat match goal with
         | H : _ || _ = true |- _ => apply orb_prop in H as [H|H]
         | H : _ && _ = true |- _ => apply andb_prop in H as [? ?]
         end;
  repeat match goal with
         | H : (_ <=? _)%N = true |- _ => apply N.leb_le in H
         | H : (_ =? _)%N = true |- _ => apply N.eqb_eq in H
         end.
  - rewrite (proj2 (N.leb_le 9 n)), (proj2 (N.leb_le n 13)) by lia. done.
  - rewrite (proj2 (N.leb_le 28 n)), (proj2 (N.leb_le n 31)) by lia.
    simpl. by rewrite orb_true_r.
  - subst. done.
Qed.

(** When every line of a text is white space, so is the text. *)
Lemma splitlines_all_space (s : string) :
  Forall (fun l => all_space l = true) (Py.splitlines s) -> all_space s = true.
Proof.
  cut ((Forall (fun l => all_space l = true) (Py.splitlines s) -> all_space s = true)
       ∧ ∀ c, Forall (fun l => all_space l = true) (Py.splitlines (String c s)) ->
              all_space (String c s) = true); [by intros []|].
  induction s as [|a s [IH1 IH2]].
  - split; [done|]. intros c. simpl.
    destruct (Py.is_linebreak c) eqn:Hc.
    + intros _. by rewrite (is_linebreak_isspace _ Hc).
    + intros H. inversion H as [|? ? Hl _]; subst. simpl in Hl. done.
  - split; [apply IH2|]. intros c.
    change (Py.splitlines (String c (String a s)))
      with (if Py.is_linebreak c
            then if bool_decide (c = Py.CR) && bool_decide (a = Py.LF)
                 then EmptyString :: Py.splitlines s
                 else EmptyString :: Py.splitlines (String a s)
            else match Py.splitlines (String a s) with
                 | [] => [String c EmptyString]
                 | l :: ls => String c l :: ls
                 end).
    destruct (Py.is_linebreak c) eqn:Hc.
    + change (all_space (String c (String a s)))
        with (Py.isspace c && all_space (String a s)).
      rewrite (is_linebreak_isspace _ Hc). cbn [andb].
      destruct (bool_decide (c = Py.CR) && bool_decide (a = Py.LF)) eqn:Hcrlf.
      * intros H. inversion H as [|? ? _ Hls]; subst.
        apply andb_prop in Hcrlf as [_ Ha]. apply bool_decide_eq_true in Ha. subst a.
        simpl. by apply IH1.
      * intros H. inversion H as [|? ? _ Hls]; subst. by apply IH2.
    + intros H. change (all_space (String c (String a s)))
        with (Py.isspace c && all_space (String a s)).
      destruct (Py.splitlines (String a s)) as [|l ls] eqn:Hsp.
      * inversion H as [|? ? Hl _]; subst. simpl in Hl.
        apply andb_prop in Hl as [-> _]. apply IH2. rewrite Hsp. constructor.
      * inversion H as [|? ? Hl Hls]; subst. simpl in Hl.
        apply andb_prop in Hl as [-> Hl]. apply IH2. rewrite Hsp. by constructor.
Qed.

Lemma batch_lines_blank_iff (raw : string) :
  batch_lines raw = [] ↔ all_space raw = true.
Proof.
  split.
  - intros Hb. rewrite <- all_space_strip. apply splitlines_all_space.
    rewrite batch_lines_processed in Hb. unfold processed_lines_of in Hb.
    apply Forall_forall. intros l Hl.
    destruct (all_space l) eqn:Hs; [done|]. exfalso.
    assert (Hin : Py.strip l ∈ filter (fun line => Py.nonempty line)
                                      (map Py.strip (Py.splitlines (Py.strip raw)))).
    { apply list_elem_of_filter. split.
      - change (Py.nonempty (Py.strip l)) with (not_blank l).
        by rewrite not_blank_all_space, Hs.
      - apply list_elem_of_fmap. by exists l. }
    rewrite Hb in Hin. by apply elem_of_nil in Hin.
  - intros Hb. apply batch_lines_strip_empty. by rewrite (strip_all_space _ Hb).
Qed.

Lemma initial_rollover_stdout base idx mb hdr w :
  ∃ added, stdout (initial_rollover base idx mb hdr w).2 = stdout w ++ added
           ∧ Forall writer_report added.
Proof.
  unfold initial_rollover. case_match.
  - eexists [_; _]. simpl. rewrite <- app_assoc. split; [done|].
    by repeat constructor.
  - exists []. by rewrite app_nil_r.
Qed.

Lemma decision_warnings raw base idx mb hdr w :
  Forall writer_report (decision raw base idx mb hdr w).2.
Proof.
  unfold decision. destruct (initial_rollover base idx mb hdr w) as [s w1].
  destruct (batch_lines raw); [by constructor|].
  unfold choose_lines. repeat case_match; simpl; by repeat constructor.
Qed.

Lemma write_and_check_stdout io mb idx fh path lines w :
  ∃ added, stdout (write_and_check io mb idx fh path lines w).2 = stdout w ++ added
           ∧ Forall writer_report added.
Proof.
  unfold write_and_check. destruct io as [|e|n e|e]; simpl.
  - case_match; simpl.
    + eexists [_]. split; [done|]. by repeat constructor.
    + exists []. by rewrite app_nil_r.
  - eexists [_]. split; [done|]. by destruct e; repeat constructor.
  - eexists [_]. split; [done|]. by destruct e; repeat constructor.
  - eexists [_]. split; [done|]. by destruct e; repeat constructor.
Qed.

(** The writer prints reports of its own only. *)
Lemma append_results_stdout io raw base idx mb hdr w :
  ∃ added,
    stdout (append_results_to_csv_with_rollover io raw base idx mb hdr w).2
    = stdout w ++ added
    ∧ Forall writer_report added.
Proof.
  rewrite append_results_stages. cbv zeta.
  destruct (initial_rollover_stdout base idx mb hdr w) as (a1 & H1 & Hf1).
  pose proof (decision_warnings raw base idx mb hdr w) as Hf2.
  destruct (decision raw base idx mb hdr w) as [[lw fh] warns]. simpl in Hf2.
  destruct lw as [|l lw].
  - exists (a1 ++ warns). simpl. rewrite H1, <- app_assoc. split; [done|].
    by apply Forall_app.
  - destruct (write_and_check_stdout io mb
                (ws_idx (resolved base idx mb hdr w)) fh
                (ws_filename (resolved base idx mb hdr w)) (l :: lw)
                (prints warns (initial_rollover base idx mb hdr w).2))
      as (a3 & H3 & Hf3).
    exists (a1 ++ warns ++ a3). rewrite H3. simpl. rewrite H1, <- !app_assoc.
    split; [done|]. by repeat apply Forall_app_2.
Qed.

Lemma handle_response_never_malformed E base mb i raw st n csv :
  WarnMalformed n csv ∈ stdout (wld (handle_response E base mb i raw st)) ->
  WarnMalformed n csv ∈ stdout (wld st).
Proof.
  unfold handle_response.
  destruct (Py.nonempty raw && Py.nonempty (Py.strip raw)) eqn:Hg.
  - assert (H0 : 0 ≤ num_data_lines_of (processed_lines_of raw)).
    { apply andb_prop in Hg as [_ Hs]. unfold num_data_lines_of.
      destruct (processed_lines_of raw) eqn:Hp; [|simpl; lia].
      exfalso. rewrite <- batch_lines_processed in Hp.
      apply batch_lines_blank_iff in Hp. by rewrite (strip_all_space _ Hp) in Hs. }
    rewrite (proj2 (Z.leb_le _ _) H0). simpl.
    destruct (append_results_stdout (io E i) raw base (current_file_index st) mb
                (current_headers st) (wld st)) as (added & Ha & Hf).
    destruct (append_results_to_csv_with_rollover _ _ _ _ _ _ _) as [r w'].
    simpl in Ha.
    assert (Hw : WarnMalformed n csv ∈ stdout w' -> WarnMalformed n csv ∈ stdout (wld st)).
    { rewrite Ha. intros [Hin|Hin]%elem_of_app; [done|].
      by apply (proj1 (Forall_forall _ _) Hf) in Hin. }
    destruct (0 <? _); [done|].
    destruct (bool_decide _ && bool_decide _); [|done].
    simpl. intros [Hin|Hin%list_elem_of_singleton]%elem_of_app; [by auto|discriminate].
  - simpl. intros [Hin|Hin%list_elem_of_singleton]%elem_of_app; [done|discriminate].
Qed.

(** X1: a response has no line left after normalisation exactly when its
    text is empty or all white space.  So the return at lines 98-99 of the
    writer is never reached once the test of line 87 has passed, and in the
    loop the test of line 225 always holds once the test of line 218 has
    passed: handling a response never prints the warning of lines 246-247. *)
Theorem X1_blank_exactly_when_all_white_space :
  (∀ raw, batch_lines raw = [] ↔ all_space raw = true)
  ∧ (∀ raw, Py.nonempty (Py.strip raw) = true -> batch_lines raw ≠ [])
  ∧ (∀ raw, Py.nonempty raw && Py.nonempty (Py.strip raw) = true ->
            0 ≤ num_data_lines_of (processed_lines_of raw))
  ∧ (∀ E base mb i raw st n csv,
       WarnMalformed n csv ∈ stdout (wld (handle_response E base mb i raw st)) ->
       WarnMalformed n csv ∈ stdout (wld st)).
Proof.
  assert (H2 : ∀ raw, Py.nonempty (Py.strip raw) = true -> batch_lines raw ≠ []).
  { intros raw Hs Hb. apply batch_lines_blank_iff in Hb.
    by rewrite (strip_all_space _ Hb) in Hs. }
  split; [apply batch_lines_blank_iff|]. split; [done|]. split.
  - intros raw [_ Hs]%andb_prop. specialize (H2 raw Hs).
    rewrite batch_lines_processed in H2. unfold num_data_lines_of.
    destruct (processed_lines_of raw); [done | simpl; lia].
  - apply handle_response_never_malformed.
Qed.

Lemma X1_blank_exactly_when_all_white_space_witness :
  batch_lines (" VIN " +:+ os_linesep) ≠ []
  ∧ 0 ≤ num_data_lines_of (processed_lines_of (" VIN " +:+ os_linesep)).
Proof.
  split.
  - apply (proj1 (proj2 X1_blank_exactly_when_all_white_space)). reflexivity.
  - apply (proj1 (proj2 (proj2 X1_blank_exactly_when_all_white_space))). reflexivity.
Defined.

Lemma rstrip_idem (s : string) : Py.rstrip (Py.rstrip s) = Py.rstrip s.
Proof.
  induction s as [|c s IH]; [done|]. simpl.
  destruct (Py.rstrip s) as [|a r] eqn:Hr.
  - destruct (Py.isspace c) eqn:Hc; [done|]. simpl. by rewrite Hc.
  - change (Py.rstrip (String c (String a r)))
      with (match Py.rstrip (String a r) with
            | EmptyString => if Py.isspace c then EmptyString else String c EmptyString
            | x => String c x
            end).
    by rewrite IH.
Qed.

Lemma lstrip_head (s : string) :
  Py.lstrip s = "" ∨ ∃ c t, Py.lstrip s = String c t ∧ Py.isspace c = false.
Proof.
  induction s as [|c s IH]; [by left|]. simpl.
  destruct (Py.isspace c) eqn:Hc; [done|]. right. by exists c, s.
Qed.

Lemma rstrip_head (c : ascii) (t : string) :
  Py.isspace c = false -> ∃ t', Py.rstrip (String c t) = String c t'.
Proof.
  intros Hc. simpl. destruct (Py.rstrip t); rewrite ?Hc; by eexists.
Qed.

Lemma strip_idem (s : string) : Py.strip (Py.strip s) = Py.strip s.
Proof.
  unfold Py.strip. destruct (lstrip_head s) as [->|(c & t & -> & Hc)]; [done|].
  destruct (rstrip_head c t Hc) as [t' Ht]. rewrite Ht.
  cbn [Py.lstrip]. rewrite Hc, <- Ht. apply rstrip_idem.
Qed.

Lemma no_linebreak_lstrip (s : string) :
  no_linebreak s = true -> no_linebreak (Py.lstrip s) = true.
Proof.
  induction s as [|c s IH]; [done|]. intros H. simpl.
  destruct (Py.isspace c); [|done]. simpl in H. apply andb_prop in H as [_ H]. auto.
Qed.

Lemma no_linebreak_rstrip (s : string) :
  no_linebreak s = true -> no_linebreak (Py.rstrip s) = true.
Proof.
  induction s as [|c s IH]; [done|]. simpl. intros [Hc Hs]%andb_prop.
  specialize (IH Hs). destruct (Py.rstrip s); simpl in *.
  - destruct (Py.isspace c); [done|]. simpl. by rewrite Hc.
  - by rewrite Hc, IH.
Qed.

Lemma splitlines_no_linebreak (s : string) :
  Forall (fun l => no_linebreak l = true) (Py.splitlines s).
Proof.
  cut (Forall (fun l => no_linebreak l = true) (Py.splitlines s)
       ∧ ∀ c, Forall (fun l => no_linebreak l = true) (Py.splitlines (String c s)));
    [by intros []|].
  induction s as [|a s [IH1 IH2]].
  - split; [by constructor|]. intros c. simpl.
    destruct (Py.is_linebreak c) eqn:Hc; repeat constructor. simpl. by rewrite Hc.
  - split; [apply IH2|]. intros c.
    change (Py.splitlines (String c (String a s)))
      with (if Py.is_linebreak c
            then if bool_decide (c = Py.CR) && bool_decide (a = Py.LF)
                 then EmptyString :: Py.splitlines s
                 else EmptyString :: Py.splitlines (String a s)
            else match Py.splitlines (String a s) with
                 | [] => [String c EmptyString]
                 | l :: ls => String c l :: ls
                 end).
    destruct (Py.is_linebreak c) eqn:Hc.
    + destruct (_ && _); by constructor.
    + specialize (IH2 a). destruct (Py.splitlines (String a s)) as [|l ls].
      * repeat constructor. simpl. by rewrite Hc.
      * inversion IH2 as [|? ? Hl Hls]; subst. constructor; [|done].
        simpl. by rewrite Hc, Hl.
Qed.

Lemma no_linebreak_line_body (s : string) :
  no_linebreak s = true -> line_body s = true.
Proof.
  induction s as [|c s IH]; [done|]. simpl. intros [Hc Hs]%andb_prop.
  rewrite (IH Hs), andb_true_r. apply negb_true_iff in Hc. apply negb_true_iff.
  destruct (Py.is_crlf c) eqn:Hcr; [|done]. exfalso.
  unfold Py.is_crlf in Hcr.
  apply orb_prop in Hcr as [H|H]; apply bool_decide_eq_true in H; by subst.
Qed.

Lemma batch_lines_normal (raw : string) :
  Forall (fun l => Py.nonempty l = true ∧ Py.strip l = l ∧ no_linebreak l = true)
         (batch_lines raw).
Proof.
  rewrite batch_lines_processed. unfold processed_lines_of.
  apply Forall_forall. intros l [Hne (x & -> & Hx)%list_elem_of_fmap]%list_elem_of_filter.
  split; [by destruct (Py.nonempty (Py.strip x))|]. split; [apply strip_idem|].
  unfold Py.strip. apply no_linebreak_rstrip, no_linebreak_lstrip.
  by apply (proj1 (Forall_forall _ _) (splitlines_no_linebreak (Py.strip raw))).
Qed.

(** X2: every line that the writer keeps of a batch is non-empty, has no
    white space at either end, and contains none of the line boundaries
    (LF, CR, VT, FF, FS, GS, RS, NEL); the loop counts the same lines. *)
Theorem X2_batch_lines_are_stripped_records (raw : string) :
  Forall (fun l => Py.nonempty l = true ∧ Py.strip l = l ∧ no_linebreak l = true
                   ∧ all_space l = false)
         (batch_lines raw)
  ∧ processed_lines_of raw = batch_lines raw.
Proof.
  split; [|by rewrite batch_lines_processed].
  eapply Forall_impl; [apply batch_lines_normal|].
  intros l (Hne & Hs & Hnl). repeat split; try done.
  rewrite <- Hs in Hne. change (Py.nonempty (Py.strip l)) with (not_blank l) in Hne.
  rewrite not_blank_all_space in Hne. by apply negb_true_iff in Hne.
Qed.

(** X3: file names of different indices differ, so the file of a later
    index is never a file written under an earlier index. *)
Theorem X3_output_filenames_are_distinct (base : string) (i j : Z) :
  output_filename_of base i = output_filename_of base j ↔ i = j.
Proof. split; [apply output_filename_of_inj | by intros ->]. Qed.

Lemma starts_with_refl (s : string) : starts_with s s.
Proof. exists "". by rewrite str_app_nil_r. Qed.

(** X4: a call of the writer changes at most the file whose name it
    returns; it never removes a file, and a file that existed keeps its old
    content as the beginning of the new one, whatever the outcome of the
    write. *)
Theorem X4_writer_only_appends_to_the_returned_file io raw base idx mb hdr w :
  let r := append_results_to_csv_with_rollover io raw base idx mb hdr w in
  (∀ path, path ≠ ws_filename r.1 -> files r.2 !! path = files w !! path)
  ∧ (∀ path content, files w !! path = Some content ->
       ∃ content', files r.2 !! path = Some content' ∧ starts_with content' content)
  ∧ posted r.2 = posted w.
Proof.
  intros r. split; [|split].
  - intros path Hp. unfold r in *. rewrite append_results_filename in Hp.
    by apply append_results_only_target.
  - intros path content Hc. unfold r. rewrite append_results_files.
    destruct (lines_to_actually_write raw base idx mb hdr w) as [|l ls].
    { exists content. split; [done | apply starts_with_refl]. }
    destruct (decide (path = ws_filename (resolved base idx mb hdr w))) as [->|Hne].
    + destruct io; simpl; rewrite ?lookup_insert_eq, ?Hc; simpl;
        eexists; (split; [done|]); (apply starts_with_refl || by eexists).
    + exists content. split; [|apply starts_with_refl].
      destruct io; simpl; by rewrite ?lookup_insert_ne.
  - apply append_results_posted.
Qed.

(** ** The form of the files that the writer produces *)

Lemma readlines_written_text (lines : list string) :
  Forall (fun l => line_body l = true) lines ->
  Py.readlines (written_text lines) = map (fun l => l +:+ os_linesep) lines.
Proof.
  unfold Py.readlines. induction 1 as [|l ls Hl Hls IH]; [done|]. simpl.
  rewrite universal_newlines_line, keepends_line by done. by rewrite IH.
Qed.

Lemma not_blank_with_linesep (l : string) : not_blank (l +:+ os_linesep) = not_blank l.
Proof. by rewrite !not_blank_all_space, all_space_app, andb_true_r. Qed.

Lemma tidy_blank_free (content : string) : tidy content -> blank_free content.
Proof.
  intros (lines & Hl & ->). unfold blank_free.
  rewrite readlines_written_text by (eapply Forall_impl; [exact Hl | by intros ? []]).
  apply Forall_fmap. eapply Forall_impl; [exact Hl|].
  intros l [_ Hb]. simpl. by rewrite not_blank_with_linesep.
Qed.

Lemma blank_free_cleaned (content : string) :
  blank_free content -> cleaned_content content = content.
Proof.
  intros Hb. unfold cleaned_content. rewrite filter_all; [by rewrite bool_decide_eq_true_2|].
  eapply Forall_impl; [exact Hb|]. intros l Hl. by rewrite Hl.
Qed.

Lemma tidy_app (lines : list string) (content : string) :
  tidy content ->
  Forall (fun l => line_body l = true ∧ not_blank l = true) lines ->
  tidy (content +:+ written_text lines).
Proof.
  intros (old & Hold & ->) Hl. exists (old ++ lines). split; [by apply Forall_app|].
  by rewrite written_text_app.
Qed.

Lemma tidy_empty : tidy "".
Proof. exists []. by split. Qed.

Lemma batch_lines_tidy (raw : string) :
  Forall (fun l => line_body l = true ∧ not_blank l = true) (batch_lines raw).
Proof.
  eapply Forall_impl; [apply batch_lines_normal|].
  intros l (Hne & Hs & Hnl). split; [by apply no_linebreak_line_body|].
  unfold not_blank. by rewrite Hs.
Qed.

Lemma lines_to_write_tidy raw base idx mb hdr w :
  Forall (fun l => line_body l = true ∧ not_blank l = true)
         (lines_to_actually_write raw base idx mb hdr w).
Proof.
  destruct (lines_to_actually_write raw base idx mb hdr w) as [|l ls] eqn:Hl;
    [by constructor|].
  destruct (decision_lines_from_batch raw base idx mb hdr w) as (h & rest & Hb & _ & Hw).
  { by rewrite Hl. }
  pose proof (batch_lines_tidy raw) as Ht. rewrite Hb in Ht. rewrite Hl in Hw.
  destruct Hw as [-> | ->]; [done|]. by inversion Ht.
Qed.

Lemma append_results_tidy io raw base idx mb hdr w :
  all_tidy (files w) ->
  (∀ n e, io ≠ IoWriteFails n e) ->
  all_tidy (files (append_results_to_csv_with_rollover io raw base idx mb hdr w).2).
Proof.
  intros Hall Hio path content. rewrite append_results_files.
  pose proof (lines_to_write_tidy raw base idx mb hdr w) as Hl.
  destruct (lines_to_actually_write raw base idx mb hdr w) as [|l ls]; [by apply Hall|].
  assert (Hnew : ∀ fs, all_tidy fs ->
            <[ws_filename (resolved base idx mb hdr w)
              := default "" (fs !! ws_filename (resolved base idx mb hdr w))
                 +:+ written_text (l :: ls)]> fs !! path = Some content ->
            tidy content).
  { intros fs Hfs. destruct (decide (path = ws_filename (resolved base idx mb hdr w)))
      as [->|Hne].
    - rewrite lookup_insert_eq. intros [= <-]. apply (tidy_app (l :: ls)); [|done].
      destruct (fs !! _) as [c|] eqn:Hc; simpl; [by eapply Hfs | apply tidy_empty].
    - rewrite lookup_insert_ne by done. apply Hfs. }
  destruct io as [|e|n e|e]; simpl.
  - by apply Hnew.
  - apply Hall.
  - by destruct (Hio n e).
  - by apply Hnew.
Qed.

(** X5: a file made of non-blank lines without CR or LF inside, each ended
    by the line separator, is left as it is by the cleanup pass; and when
    every file has this form, so has every file after a call of the writer
    whose write is not cut short (completed, or not started).  In particular
    a file that a completed call creates has this form. *)
Theorem X5_writer_keeps_files_tidy :
  (∀ content, tidy content -> blank_free content ∧ cleaned_content content = content)
  ∧ (∀ io raw base idx mb hdr w,
       all_tidy (files w) ->
       (∀ n e, io ≠ IoWriteFails n e) ->
       all_tidy (files (append_results_to_csv_with_rollover io raw base idx mb hdr w).2)).
Proof.
  split.
  - intros content Ht. split; [by apply tidy_blank_free|].
    by apply blank_free_cleaned, tidy_blank_free.
  - apply append_results_tidy.
Qed.

Lemma X5_writer_keeps_files_tidy_witness :
  all_tidy (files (append_results_to_csv_with_rollover IoOk
                     (" VIN,Make " +:+ os_linesep +:+ os_linesep +:+ "1,A")
                     "out" 0 2 None (World ∅ [] [])).2).
Proof.
  apply (proj2 X5_writer_keeps_files_tidy).
  - intros path content H. vm_compute in H. discriminate.
  - intros n e. discriminate.
Defined.

(** ** A run, batch by batch *)

Lemma decode_state E vin_list base mb w :
  vin_list ≠ [] ->
  let st := state_before E vin_list base mb w (num_batches_of vin_list) in
  (decode_vins_in_batches E vin_list base mb w).1
  = (total_successfully_decoded_vins st, elements (written_files st))
  ∧ files (decode_vins_in_batches E vin_list base mb w).2 = files (wld st)
  ∧ posted (decode_vins_in_batches E vin_list base mb w).2 = posted (wld st).
Proof.
  intros Hne st. unfold decode_vins_in_batches. destruct vin_list as [|v vs]; [done|].
  cbv zeta. fold (state_before E (v :: vs) base mb w (num_batches_of (v :: vs))).
  fold st. by case_bool_decide.
Qed.

Lemma guard_false_no_lines (raw : string) :
  Py.nonempty raw && Py.nonempty (Py.strip raw) = false -> processed_lines_of raw = [].
Proof.
  intros H. rewrite <- batch_lines_processed. apply batch_lines_strip_empty.
  destruct raw; [done|]. by destruct (Py.nonempty (Py.strip _)).
Qed.

Lemma writer_call_for_none E base mb i raw st :
  writer_call_for E base mb i raw st = None -> processed_lines_of raw = [].
Proof.
  unfold writer_call_for.
  destruct (Py.nonempty raw && Py.nonempty (Py.strip raw)) eqn:Hg; simpl.
  - unfold num_data_lines_of. destruct (processed_lines_of raw); [done|].
    rewrite (proj2 (Z.leb_le _ _)); [done | simpl; lia].
  - intros _. by apply guard_false_no_lines.
Qed.

(** What handling a response does to the loop state. *)
Lemma handle_response_spec E base mb i raw st :
  let st' := handle_response E base mb i raw st in
  total_successfully_decoded_vins st'
  = total_successfully_decoded_vins st + rows_counted (ApiOk raw)
  ∧ posted (wld st') = posted (wld st)
  ∧ match writer_call_for E base mb i raw st with
    | Some r => current_file_index st' = ws_idx r.1 ∧ files (wld st') = files r.2
    | None => current_file_index st' = current_file_index st
              ∧ current_headers st' = current_headers st
              ∧ written_files st' = written_files st
              ∧ files (wld st') = files (wld st)
    end.
Proof.
  intros st'. split; [|split; [apply handle_response_posted|]].
  - unfold st', handle_response, rows_counted.
    destruct (Py.nonempty raw && Py.nonempty (Py.strip raw)) eqn:Hg.
    + unfold num_data_lines_of.
      destruct (processed_lines_of raw) as [|p ps] eqn:Hp; simpl; [lia|].
      destruct (append_results_to_csv_with_rollover _ _ _ _ _ _ _) as [r w'].
      rewrite (proj2 (Z.leb_le _ _)) by lia.
      destruct (0 <? _) eqn:Hpos; simpl.
      * lia.
      * apply Z.ltb_ge in Hpos. destruct (bool_decide _ && bool_decide _); simpl; lia.
    + rewrite (guard_false_no_lines _ Hg). simpl. lia.
  - unfold st', handle_response, writer_call_for.
    destruct (Py.nonempty raw && Py.nonempty (Py.strip raw)); simpl; [|done].
    destruct (0 <=? num_data_lines_of (processed_lines_of raw)); simpl; [|done].
    destruct (append_results_to_csv_with_rollover _ _ _ _ _ _ _) as [r w'].
    destruct (0 <? _); [done|]. by destruct (bool_decide _ && bool_decide _).
Qed.

Lemma writer_call_inv E vin_list base mb w n r :
  writer_call E vin_list base mb w n = Some r ->
  ∃ raw w0,
    files w0 = files (wld (state_before E vin_list base mb w n))
    ∧ r = append_results_to_csv_with_rollover (io E n) raw base
            (current_file_index (state_before E vin_list base mb w n)) mb
            (current_headers (state_before E vin_list base mb w n)) w0.
Proof.
  unfold writer_call. destruct (api E n _) as [raw| | |]; try done.
  unfold writer_call_for. case_match; [|done]. intros [= <-].
  eexists raw, _. split; [|reflexivity]. done.
Qed.

(** What batch [n] does to the loop state. *)
Lemma batch_step_spec E vin_list base mb w n :
  let st := state_before E vin_list base mb w n in
  let st' := state_before E vin_list base mb w (S n) in
  total_successfully_decoded_vins st'
  = total_successfully_decoded_vins st + rows_counted (answer E vin_list n)
  ∧ match writer_call E vin_list base mb w n with
    | Some r => current_file_index st' = ws_idx r.1 ∧ files (wld st') = files r.2
    | None => current_file_index st' = current_file_index st
              ∧ current_headers st' = current_headers st
              ∧ written_files st' = written_files st
              ∧ files (wld st') = files (wld st)
    end.
Proof.
  intros st st'. unfold st'. rewrite state_before_succ. fold st.
  unfold process_batch, writer_call, answer, state_at_response. cbv zeta. fold st.
  destruct (api E n (Py.join ";" (batch_vins_of vin_list n))) as [raw|msg text|msg|msg];
    [|by simpl; split; [lia|]..].
  destruct (handle_response_spec E base mb n raw
              (set_world st (record_post (Py.join ";" (batch_vins_of vin_list n))
                 (py_print (ProcessingBatch (n + 1) (num_batches_of vin_list)
                              (length (batch_vins_of vin_list n))) (wld st)))))
    as (H1 & _ & H3).
  split; [exact H1|]. exact H3.
Qed.

Lemma append_results_index io raw base idx mb hdr w :
  idx ≤ ws_idx (resolved base idx mb hdr w) ≤ idx + 1
  ∧ ws_idx (resolved base idx mb hdr w)
    ≤ ws_idx (append_results_to_csv_with_rollover io raw base idx mb hdr w).1
    ≤ ws_idx (resolved base idx mb hdr w) + 1.
Proof.
  split.
  - destruct (resolved_cases base idx mb hdr w) as [[_ ->]|[_ ->]]; simpl; lia.
  - destruct (lines_to_actually_write raw base idx mb hdr w) as [|l ls] eqn:Hl.
    + rewrite append_results_skips by done. simpl. lia.
    + rewrite append_results_writes by (by rewrite Hl).
      apply write_and_check_state.
Qed.

Lemma starts_with_trans (a b c : string) :
  starts_with a b -> starts_with b c -> starts_with a c.
Proof. intros [x ->] [y ->]. exists (y +:+ x). by rewrite str_app_assoc. Qed.

Lemma append_results_keeps io raw base idx mb hdr w path content :
  files w !! path = Some content ->
  ∃ content', files (append_results_to_csv_with_rollover io raw base idx mb hdr w).2 !! path
              = Some content' ∧ starts_with content' content.
Proof.
  intros Hc. rewrite append_results_files.
  destruct (lines_to_actually_write raw base idx mb hdr w) as [|l ls].
  { exists content. split; [done | apply starts_with_refl]. }
  destruct (decide (path = ws_filename (resolved base idx mb hdr w))) as [->|Hne].
  - destruct io; simpl; rewrite ?lookup_insert_eq, ?Hc; simpl;
      eexists; (split; [done|]); (apply starts_with_refl || by eexists).
  - exists content. split; [|apply starts_with_refl].
    destruct io; simpl; by rewrite ?lookup_insert_ne.
Qed.

(** The invariants of the loop, after [n] batches. *)
Lemma run_invariants E vin_list base mb w n :
  let st := state_before E vin_list base mb w n in
  0 ≤ current_file_index st ≤ 2 * Z.of_nat n
  ∧ (∀ path, (∀ k, 0 ≤ k < 2 * Z.of_nat n -> path ≠ output_filename_of base k) ->
             files (wld st) !! path = files w !! path)
  ∧ (∀ path content, files w !! path = Some content ->
       ∃ content', files (wld st) !! path = Some content' ∧ starts_with content' content).
Proof.
  cbv zeta. induction n as [|n (Hidx & Hframe & Hkeep)].
  - simpl. split; [lia|]. split; [done|]. intros path content Hc.
    exists content. split; [done | apply starts_with_refl].
  - pose proof (batch_step_spec E vin_list base mb w n) as [_ Hstep]. cbv zeta in Hstep.
    destruct (writer_call E vin_list base mb w n) as [r|] eqn:Hcall.
    + destruct Hstep as [Hi Hf].
      destruct (writer_call_inv _ _ _ _ _ _ _ Hcall) as (raw & w0 & Hw0 & Hr).
      set (st := state_before E vin_list base mb w n) in *.
      pose proof (append_results_index (io E n) raw base (current_file_index st) mb
                    (current_headers st) w0) as [Hres Hret].
      rewrite <- Hr in Hret.
      split; [rewrite Hi; lia|]. split.
      * intros path Hp. rewrite Hf, Hr, append_results_only_target, Hw0.
        -- apply Hframe. intros k Hk. apply Hp. lia.
        -- rewrite resolved_filename. apply Hp. lia.
      * intros path content Hc. destruct (Hkeep path content Hc) as (c1 & Hc1 & Hs1).
        rewrite <- Hw0 in Hc1.
        destruct (append_results_keeps (io E n) raw base (current_file_index st) mb
                    (current_headers st) w0 path c1 Hc1) as (c2 & Hc2 & Hs2).
        exists c2. rewrite Hf, Hr. split; [done|]. by eapply starts_with_trans.
    + destruct Hstep as (Hi & _ & _ & Hf). rewrite Hi, Hf.
      split; [lia|]. split; [|done]. intros path Hp. apply Hframe.
      intros k Hk. apply Hp. lia.
Qed.

(** X6: a run changes no file other than the output files of the indices
    below twice the number of batches; it never removes a file, and a file
    that existed before the run keeps its old content as the beginning of
    the new one. *)
Theorem X6_run_only_appends_to_output_files E vin_list base mb w :
  let r := decode_vins_in_batches E vin_list base mb w in
  (∀ path,
     (∀ k, 0 ≤ k < 2 * Z.of_nat (num_batches_of vin_list) ->
           path ≠ output_filename_of base k) ->
     files r.2 !! path = files w !! path)
  ∧ (∀ path content, files w !! path = Some content ->
       ∃ content', files r.2 !! path = Some content' ∧ starts_with content' content).
Proof.
  intros r. destruct vin_list as [|v vs].
  { simpl. split; [done|]. intros path content Hc. exists content.
    split; [done | apply starts_with_refl]. }
  destruct (decode_state E (v :: vs) base mb w) as (_ & Hf & _); [done|].
  unfold r. rewrite Hf.
  destruct (run_invariants E (v :: vs) base mb w (num_batches_of (v :: vs)))
    as (_ & H2 & H3).
  by split.
Qed.

(** X7: after [n] batches the file index lies between 0 and [2 n]; and
    every file name that a run returns is the output file of an index from
    0 to twice the number of batches, excluded. *)
Theorem X7_run_uses_at_most_two_indices_per_batch E vin_list base mb w :
  (∀ n, 0 ≤ current_file_index (state_before E vin_list base mb w n) ≤ 2 * Z.of_nat n)
  ∧ (∀ n, current_file_index (state_before E vin_list base mb w n)
          ≤ current_file_index (state_before E vin_list base mb w (S n))
          ≤ current_file_index (state_before E vin_list base mb w n) + 2)
  ∧ (∀ f : string, f ∈ (decode_vins_in_batches E vin_list base mb w).1.2 ->
       ∃ k, 0 ≤ k < 2 * Z.of_nat (num_batches_of vin_list)
            ∧ f = output_filename_of base k).
Proof.
  split; [|split].
  - intros n. apply run_invariants.
  - intros n. pose proof (batch_step_spec E vin_list base mb w n) as [_ Hstep].
    cbv zeta in Hstep. destruct (writer_call E vin_list base mb w n) as [r|] eqn:Hcall.
    + destruct Hstep as [Hi _].
      destruct (writer_call_inv _ _ _ _ _ _ _ Hcall) as (raw & w0 & _ & Hr).
      pose proof (append_results_index (io E n) raw base
                    (current_file_index (state_before E vin_list base mb w n)) mb
                    (current_headers (state_before E vin_list base mb w n)) w0)
        as [Hres Hret].
      rewrite <- Hr in Hret. rewrite Hi. lia.
    + destruct Hstep as (Hi & _). rewrite Hi. lia.
  - intros f Hf. destruct vin_list as [|v vs]; [by apply elem_of_nil in Hf|].
    destruct (decode_state E (v :: vs) base mb w) as (Hd & _ & _); [done|].
    rewrite Hd in Hf. simpl in Hf. apply elem_of_elements in Hf.
    apply written_files_characterised in Hf as (i & r & Hi & Hcall & _ & ->).
    destruct (writer_call_inv _ _ _ _ _ _ _ Hcall) as (raw & w0 & _ & Hr).
    pose proof (run_invariants E (v :: vs) base mb w i) as (Hidx & _).
    cbv zeta in Hidx.
    pose proof (append_results_index (io E i) raw base
                  (current_file_index (state_before E (v :: vs) base mb w i)) mb
                  (current_headers (state_before E (v :: vs) base mb w i)) w0)
      as [Hres _].
    exists (ws_idx (resolved base
              (current_file_index (state_before E (v :: vs) base mb w i)) mb
              (current_headers (state_before E (v :: vs) base mb w i)) w0)).
    split; [lia|]. rewrite Hr, append_results_filename. apply resolved_filename.
Qed.

Lemma sum_snoc (l : list Z) (x : Z) : foldr Z.add 0 (l ++ [x]) = foldr Z.add 0 l + x.
Proof. induction l as [|y l IH]; simpl; [lia | rewrite IH; lia]. Qed.

Lemma total_after E vin_list base mb w n :
  total_successfully_decoded_vins (state_before E vin_list base mb w n)
  = foldr Z.add 0 (map (fun i => rows_counted (answer E vin_list i)) (seq 0 n)).
Proof.
  induction n as [|n IH]; [done|].
  pose proof (batch_step_spec E vin_list base mb w n) as [Ht _]. cbv zeta in Ht.
  rewrite Ht, IH, seq_S, map_app. simpl. by rewrite sum_snoc.
Qed.

(** X8: the count that a run returns is the sum, over the batches, of the
    number of non-blank lines after the first of each response text (nothing
    for a failed request or a blank text).  It depends on the answers of the
    service only: not on the files, the size limit or the outcome of any
    write, so rows of a batch that was dropped or whose write failed are
    counted too.  It is never negative. *)
Theorem X8_count_is_the_number_of_data_lines_received E vin_list base mb w :
  (decode_vins_in_batches E vin_list base mb w).1.1
  = foldr Z.add 0 (map (fun i => rows_counted (answer E vin_list i))
                       (seq 0 (num_batches_of vin_list)))
  ∧ (∀ E' base' mb' w',
       (∀ i payload, api E' i payload = api E i payload) ->
       (decode_vins_in_batches E' vin_list base' mb' w').1.1
       = (decode_vins_in_batches E vin_list base mb w).1.1)
  ∧ 0 ≤ (decode_vins_in_batches E vin_list base mb w).1.1.
Proof.
  assert (Hsum : ∀ E base mb w,
            (decode_vins_in_batches E vin_list base mb w).1.1
            = foldr Z.add 0 (map (fun i => rows_counted (answer E vin_list i))
                                 (seq 0 (num_batches_of vin_list)))).
  { intros E0 base0 mb0 w0. destruct vin_list as [|v vs]; [done|].
    destruct (decode_state E0 (v :: vs) base0 mb0 w0) as (Hd & _); [done|].
    rewrite Hd. simpl. apply total_after. }
  split; [apply Hsum|]. split.
  - intros E' base' mb' w' Hapi. rewrite !Hsum. f_equal. apply map_ext.
    intros i. unfold answer. by rewrite Hapi.
  - rewrite Hsum. generalize (seq 0 (num_batches_of vin_list)). intros l.
    induction l as [|i l IH]; simpl; [lia|].
    assert (0 ≤ rows_counted (answer E vin_list i)); [|lia].
    unfold rows_counted. destruct (answer E vin_list i); lia.
Qed.

Lemma X8_count_is_the_number_of_data_lines_received_witness :
  let text := "VIN" +:+ os_linesep +:+ "1,A" +:+ os_linesep +:+ "2,B" in
  let E := Env (fun _ _ => ApiOk text) (fun _ => IoOk) in
  let E' := Env (fun _ _ => ApiOk text) (fun _ => IoOpenFails (IOError "denied")) in
  (decode_vins_in_batches E' ["V"] "other" 0 (World ∅ [] [])).1.1
  = (decode_vins_in_batches E ["V"] "out" 2 (World ∅ [] [])).1.1.
Proof.
  apply (proj1 (proj2 (X8_count_is_the_number_of_data_lines_received
           (Env (fun _ _ => ApiOk ("VIN" +:+ os_linesep +:+ "1,A" +:+ os_linesep +:+ "2,B"))
                (fun _ => IoOk))
           ["V"] "out" 2 (World ∅ [] [])))).
  intros i payload. reflexivity.
Defined.

Lemma unusable_no_call E vin_list base mb w n :
  unusable (answer E vin_list n) ->
  writer_call E vin_list base mb w n = None ∧ rows_counted (answer E vin_list n) = 0.
Proof.
  unfold unusable, writer_call, answer, rows_counted.
  destruct (api E n _) as [raw| | |]; try done.
  intros Hb. split; [by apply writer_call_for_blank|].
  rewrite <- batch_lines_processed, (proj2 (batch_lines_blank_iff raw) Hb). done.
Qed.

(** X9: when every request of a run fails or is answered by a blank text,
    the run returns the count 0 and no file name, and leaves every file as it
    was. *)
Theorem X9_run_without_usable_answer_changes_nothing E vin_list base mb w :
  (∀ i, (i < num_batches_of vin_list)%nat -> unusable (answer E vin_list i)) ->
  (decode_vins_in_batches E vin_list base mb w).1 = (0, [])
  ∧ files (decode_vins_in_batches E vin_list base mb w).2 = files w.
Proof.
  intros Hall. destruct vin_list as [|v vs]; [done|].
  destruct (decode_state E (v :: vs) base mb w) as (Hd & Hf & _); [done|].
  rewrite Hd, Hf.
  assert (Hinv : ∀ n, (n ≤ num_batches_of (v :: vs))%nat ->
            total_successfully_decoded_vins (state_before E (v :: vs) base mb w n) = 0
            ∧ written_files (state_before E (v :: vs) base mb w n) = ∅
            ∧ files (wld (state_before E (v :: vs) base mb w n)) = files w).
  { induction n as [|n IH]; [done|]. intros Hn.
    destruct IH as (Ht & Hw & Hfs); [lia|].
    destruct (unusable_no_call E (v :: vs) base mb w n) as [Hc Hr]; [apply Hall; lia|].
    pose proof (batch_step_spec E (v :: vs) base mb w n) as [Ht' Hs]. cbv zeta in Ht', Hs.
    rewrite Hc in Hs. destruct Hs as (_ & _ & Hw' & Hf').
    rewrite Ht', Hr, Ht, Hw', Hw, Hf', Hfs. done. }
  destruct (Hinv (num_batches_of (v :: vs))) as (Ht & Hw & Hfs); [lia|].
  rewrite Ht, Hw, Hfs. by rewrite elements_empty.
Qed.

Lemma X9_run_without_usable_answer_changes_nothing_witness :
  let E := Env (fun i _ => if bool_decide (i = 0%nat) then ApiOk "  "
                           else ApiRequestException "timeout")
               (fun _ => IoOk) in
  let w := World {["out.csv" := "VIN"]} [] [] in
  (decode_vins_in_batches E (replicate 51 "V") "out" 2 w).1 = (0, [])
  ∧ files (decode_vins_in_batches E (replicate 51 "V") "out" 2 w).2 = files w.
Proof.
  apply (X9_run_without_usable_answer_changes_nothing
           (Env (fun i _ => if bool_decide (i = 0%nat) then ApiOk "  "
                            else ApiRequestException "timeout")
                (fun _ => IoOk))
           (replicate 51 "V") "out" 2 (World {["out.csv" := "VIN"]} [] [])).
  intros i Hi. unfold unusable, answer. simpl. by case_bool_decide.
Defined.

(** ** More on the cleanup pass *)

Lemma cleaned_content_blank_free (content : string) :
  blank_free (cleaned_content content)
  ∧ length (Py.readlines (cleaned_content content))
    = length (filter (fun line => not_blank line) (Py.readlines content)).
Proof.
  assert (Hkept : Forall (fun line => not_blank line = true)
                    (filter (fun line => not_blank line) (Py.readlines content))).
  { apply Forall_forall. intros l [Hl _]%list_elem_of_filter.
    by destruct (not_blank l). }
  unfold blank_free.
  destruct (readlines_cleaned_content content) as [[He Hk]|[_ Hr]].
  - rewrite He. split; [|by rewrite Hk]. rewrite Hk in Hkept. exact Hkept.
  - rewrite Hr, length_map. split; [|done]. apply Forall_fmap.
    eapply Forall_impl; [exact Hkept|]. intros l Hl. simpl.
    by rewrite not_blank_normalize_ending.
Qed.

(** X10: after a pass that completes on a file that exists, no line of the
    file is blank, and the file has as many lines as it had non-blank lines
    before; when the pass cannot read the file, or cannot open it for
    writing, the file system is left as it was. *)
Theorem X10_cleanup_leaves_no_blank_line :
  (∀ path w content,
     files w !! path = Some content ->
     ∃ content',
       files (remove_blank_rows_from_file CleanOk path w) !! path = Some content'
       ∧ blank_free content'
       ∧ length (Py.readlines content')
         = length (filter (fun line => not_blank line) (Py.readlines content)))
  ∧ (∀ path w e,
       files (remove_blank_rows_from_file (CleanReadFails e) path w) = files w
       ∧ files (remove_blank_rows_from_file (CleanOpenFails e) path w) = files w).
Proof.
  split.
  - intros path w content Hc. exists (cleaned_content content).
    rewrite remove_blank_rows_files, Hc, lookup_insert_eq. split; [done|].
    apply cleaned_content_blank_free.
  - intros path w e. unfold remove_blank_rows_from_file.
    destruct (path_exists w path); simpl; [|done].
    by destruct (bool_decide _).
Qed.

Lemma X10_cleanup_leaves_no_blank_line_witness :
  let nl := os_linesep in
  let w := World {["out.csv" := "VIN" +:+ nl +:+ nl +:+ "1,A" +:+ nl +:+ " "]} [] [] in
  ∃ content',
    files (remove_blank_rows_from_file CleanOk "out.csv" w) !! "out.csv" = Some content'
    ∧ blank_free content'
    ∧ length (Py.readlines content') = 2%nat.
Proof.
  pose proof (proj1 X10_cleanup_leaves_no_blank_line "out.csv"
                (World {["out.csv" := "VIN" +:+ os_linesep +:+ os_linesep +:+ "1,A"
                                      +:+ os_linesep +:+ " "]} [] [])
                ("VIN" +:+ os_linesep +:+ os_linesep +:+ "1,A" +:+ os_linesep +:+ " ")) as H.
  destruct H as (c & H1 & H2 & H3); [vm_compute; reflexivity|].
  exists c. split; [exact H1|]. split; [exact H2|]. rewrite H3. vm_compute. reflexivity.
Defined.

Lemma pass_keeps_blank_free io q w f content :
  files w !! f = Some content -> blank_free content ->
  files (remove_blank_rows_from_file io q w) !! f = Some content.
Proof.
  intros Hc Hb. destruct (decide (q = f)) as [->|Hne].
  - unfold remove_blank_rows_from_file, path_exists. rewrite Hc.
    rewrite bool_decide_eq_true_2 by (by eexists). simpl.
    destruct io; simpl; try done;
      (rewrite filter_all;
       [by rewrite bool_decide_eq_true_2
       | eapply Forall_impl; [exact Hb | by intros l ->]]).
  - unfold remove_blank_rows_from_file.
    destruct (path_exists w q); simpl; [|done].
    destruct io; simpl; try done;
      destruct (bool_decide _); simpl; by rewrite ?lookup_insert_ne.
Qed.

Lemma pass_other_file io q w f :
  q ≠ f -> files (remove_blank_rows_from_file io q w) !! f = files w !! f.
Proof.
  intros Hne. unfold remove_blank_rows_from_file.
  destruct (path_exists w q); simpl; [|done].
  destruct io; simpl; try done;
    destruct (bool_decide _); simpl; by rewrite ?lookup_insert_ne.
Qed.

Lemma cleanup_keeps_blank_free cio paths w f content :
  files w !! f = Some content -> blank_free content ->
  files (cleanup_written_files cio paths w) !! f = Some content.
Proof.
  unfold cleanup_written_files. revert w.
  induction paths as [|q paths IH]; intros w Hc Hb; simpl; [done|].
  apply IH; [|done]. by apply pass_keeps_blank_free.
Qed.

Lemma cleanup_other_files cio paths w f :
  f ∉ paths -> files (cleanup_written_files cio paths w) !! f = files w !! f.
Proof.
  unfold cleanup_written_files. revert w.
  induction paths as [|q paths IH]; intros w Hf; simpl; [done|].
  apply not_elem_of_cons in Hf as [Hne Hf]. rewrite IH by done.
  by apply pass_other_file.
Qed.

(** X11: when the cleanup passes over a list of files all complete, every
    listed file that exists has no blank line afterwards, a file that is not
    listed is left as it was, and no file is created. *)
Theorem X11_cleanup_of_all_written_files paths w :
  let w' := cleanup_written_files (fun _ => CleanOk) paths w in
  (∀ f content, f ∈ paths -> files w !! f = Some content ->
     ∃ content', files w' !! f = Some content' ∧ blank_free content')
  ∧ (∀ f, f ∉ paths -> files w' !! f = files w !! f)
  ∧ (∀ f, files w !! f = None -> files w' !! f = None).
Proof.
  cbv zeta. split; [|split].
  - revert w. induction paths as [|q paths IH]; intros w f content Hin Hc.
    { by apply elem_of_nil in Hin. }
    change (cleanup_written_files (fun _ => CleanOk) (q :: paths) w)
      with (cleanup_written_files (fun _ => CleanOk) paths
              (remove_blank_rows_from_file CleanOk q w)).
    destruct (decide (f = q)) as [->|Hne].
    + exists (cleaned_content content).
      split; [|apply cleaned_content_blank_free].
      apply cleanup_keeps_blank_free; [|apply cleaned_content_blank_free].
      by rewrite remove_blank_rows_files, Hc, lookup_insert_eq.
    + apply elem_of_cons in Hin as [?|Hin]; [done|].
      apply (IH _ f content Hin). by rewrite pass_other_file.
  - intros f Hf. by apply cleanup_other_files.
  - revert w. induction paths as [|q paths IH]; intros w f Hnone; [done|].
    change (cleanup_written_files (fun _ => CleanOk) (q :: paths) w)
      with (cleanup_written_files (fun _ => CleanOk) paths
              (remove_blank_rows_from_file CleanOk q w)).
    apply IH. rewrite remove_blank_rows_files.
    destruct (files w !! q) as [c|] eqn:Hq; [|done].
    rewrite lookup_insert_ne; [done|]. intros ->. congruence.
Qed.

Lemma X11_cleanup_of_all_written_files_witness :
  let nl := os_linesep in
  let w := World {["a.csv" := "VIN" +:+ nl +:+ nl; "b.csv" := nl +:+ "1,A"]} [] [] in
  ∃ content', files (cleanup_written_files (fun _ => CleanOk) ["a.csv"; "b.csv"] w)
              !! "b.csv" = Some content'
              ∧ blank_free content'.
Proof.
  apply (proj1 (X11_cleanup_of_all_written_files ["a.csv"; "b.csv"]
                  (World {["a.csv" := "VIN" +:+ os_linesep +:+ os_linesep;
                           "b.csv" := os_linesep +:+ "1,A"]} [] []))
               "b.csv" (os_linesep +:+ "1,A")).
  - apply list_elem_of_In. simpl. right. left. reflexivity.
  - vm_compute. reflexivity.
Defined.

Lemma run_tidy E vin_list base mb w n :
  all_tidy (files w) ->
  (∀ i k e, io E i ≠ IoWriteFails k e) ->
  all_tidy (files (wld (state_before E vin_list base mb w n))).
Proof.
  intros Hall Hio. induction n as [|n IH]; [done|].
  pose proof (batch_step_spec E vin_list base mb w n) as [_ Hstep]. cbv zeta in Hstep.
  destruct (writer_call E vin_list base mb w n) as [r|] eqn:Hcall.
  - destruct Hstep as [_ Hf].
    destruct (writer_call_inv _ _ _ _ _ _ _ Hcall) as (raw & w0 & Hw0 & Hr).
    rewrite Hf, Hr. apply append_results_tidy; [by rewrite Hw0 | apply Hio].
  - destruct Hstep as (_ & _ & _ & Hf). by rewrite Hf.
Qed.

Lemma cleanup_tidy_unchanged cio paths w :
  all_tidy (files w) -> files (cleanup_written_files cio paths w) = files w.
Proof.
  intros Hall. apply map_eq. intros f.
  destruct (files w !! f) as [c|] eqn:Hc.
  - apply cleanup_keeps_blank_free; [done|]. by apply tidy_blank_free, (Hall f).
  - unfold cleanup_written_files. revert w Hall Hc.
    induction paths as [|q paths IH]; intros w Hall Hc; simpl; [done|].
    assert (Hq : files (remove_blank_rows_from_file (cio q) q w) = files w).
    { apply map_eq. intros p. destruct (files w !! p) as [cp|] eqn:Hp.
      - apply pass_keeps_blank_free; [done|]. by apply tidy_blank_free, (Hall p).
      - destruct (decide (q = p)) as [->|Hne]; [|by rewrite pass_other_file].
        unfold remove_blank_rows_from_file, path_exists. rewrite Hp.
        rewrite bool_decide_eq_false_2; [done|]. by intros [? ?]. }
    apply IH; rewrite Hq; done.
Qed.

(** X12: when no write of a run is cut short and every file is tidy before
    the run (in particular when there is none), every file is tidy after the
    run, and the cleanup passes over any list of files leave the file system
    as the run left it, whatever their outcomes. *)
Theorem X12_undisturbed_run_needs_no_cleanup E vin_list base mb w :
  all_tidy (files w) ->
  (∀ i k e, io E i ≠ IoWriteFails k e) ->
  let r := decode_vins_in_batches E vin_list base mb w in
  all_tidy (files r.2)
  ∧ ∀ cio paths, files (cleanup_written_files cio paths r.2) = files r.2.
Proof.
  intros Hall Hio r.
  assert (Ht : all_tidy (files r.2)).
  { unfold r. destruct vin_list as [|v vs]; [done|].
    destruct (decode_state E (v :: vs) base mb w) as (_ & Hf & _); [done|].
    rewrite Hf. by apply run_tidy. }
  split; [done|]. intros cio paths. by apply cleanup_tidy_unchanged.
Qed.

Lemma X12_undisturbed_run_needs_no_cleanup_witness :
  let text := " VIN " +:+ os_linesep +:+ os_linesep +:+ "1,A" in
  let E := Env (fun _ _ => ApiOk text) (fun _ => IoOk) in
  let r := decode_vins_in_batches E ["V"] "out" 2 (World ∅ [] []) in
  all_tidy (files r.2)
  ∧ ∀ cio paths, files (cleanup_written_files cio paths r.2) = files r.2.
Proof.
  apply (X12_undisturbed_run_needs_no_cleanup
           (Env (fun _ _ => ApiOk (" VIN " +:+ os_linesep +:+ os_linesep +:+ "1,A"))
                (fun _ => IoOk))
           ["V"] "out" 2 (World ∅ [] [])).
  - intros path content H. vm_compute in H. discriminate.
  - intros i k e. discriminate.
Defined.

(** X13: when a completed write leaves the file over the limit, the next
    call, given the index and header that this call returns, appends its
    whole batch, header included, to the file of the next index (provided
    that file is not itself over the limit), and returns that file, which is
    not the file just written. *)
Theorem X13_next_call_after_rollover_starts_with_header
    raw1 raw2 base idx mb hdr w h2 rest2 :
  lines_to_actually_write raw1 base idx mb hdr w ≠ [] ->
  let r1 := append_results_to_csv_with_rollover IoOk raw1 base idx mb hdr w in
  max_size_bytes mb < getsize r1.2 (ws_filename r1.1) ->
  batch_lines raw2 = h2 :: rest2 ->
  let next := output_filename_of base (ws_idx r1.1) in
  ¬ oversize r1.2 next mb ->
  let r2 := append_results_to_csv_with_rollover IoOk raw2 base (ws_idx r1.1) mb
              (ws_header r1.1) r1.2 in
  ws_header r1.1 = None
  ∧ ws_filename r2.1 = next
  ∧ next ≠ ws_filename r1.1
  ∧ files r2.2
    = <[next := default "" (files r1.2 !! next) +:+ written_text (h2 :: rest2)]>
        (files r1.2).
Proof.
  intros Hne r1 Hbig Hb next Hfit r2.
  assert (Hr1 : r1.1 = WriterState (ws_idx (resolved base idx mb hdr w) + 1) None
                         (ws_filename (resolved base idx mb hdr w))).
  { unfold r1 in *. rewrite append_results_filename in Hbig.
    rewrite append_results_writes in * by done.
    rewrite write_and_check_ok in *. cbv zeta in *.
    destruct (max_size_bytes mb <? _) eqn:Hlt; [done|].
    exfalso. apply Z.ltb_ge in Hlt. simpl in Hbig. lia. }
  assert (Hh : ws_header r1.1 = None) by (by rewrite Hr1).
  assert (Hres : resolved base (ws_idx r1.1) mb (ws_header r1.1) r1.2
                 = WriterState (ws_idx r1.1) (ws_header r1.1) next).
  { unfold resolved. by rewrite initial_rollover_fits. }
  assert (Hd : decision raw2 base (ws_idx r1.1) mb (ws_header r1.1) r1.2
               = (h2 :: rest2, Some h2, [])).
  { apply decision_fresh; [done|]. right. by rewrite Hres, Hh. }
  split; [done|]. split; [unfold r2; by rewrite append_results_filename, Hres|].
  split.
  - unfold next. rewrite Hr1. cbn [ws_idx ws_filename]. rewrite resolved_filename.
    intros H. symmetry in H. by apply output_filename_next in H.
  - unfold r2. rewrite append_results_files. unfold lines_to_actually_write.
    by rewrite Hd, Hres.
Qed.

Lemma X13_next_call_after_rollover_starts_with_header_witness :
  let nl := os_linesep in
  let r1 := append_results_to_csv_with_rollover IoOk ("VIN" +:+ nl +:+ "1,A") "out" 0 0
              None (World ∅ [] []) in
  let r2 := append_results_to_csv_with_rollover IoOk ("VIN" +:+ nl +:+ "2,B") "out"
              (ws_idx r1.1) 0 (ws_header r1.1) r1.2 in
  files r2.2 = {["out.csv" := "VIN" +:+ nl +:+ "1,A" +:+ nl;
                 "out1.csv" := "VIN" +:+ nl +:+ "2,B" +:+ nl]}.
Proof.
  pose proof (X13_next_call_after_rollover_starts_with_header
                ("VIN" +:+ os_linesep +:+ "1,A") ("VIN" +:+ os_linesep +:+ "2,B")
                "out" 0 0 None (World ∅ [] []) "VIN" ["2,B"]) as H.
  destruct H as (_ & _ & _ & H).
  - vm_compute. discriminate.
  - vm_compute. reflexivity.
  - reflexivity.
  - intros [He _]. vm_compute in He. discriminate.
  - cbv zeta. rewrite H. vm_compute. reflexivity.
Defined.

(** ** One header for the lines that a run adds to a file *)

Lemma writer_step_changed io raw base idx mb hdr w :
  files (append_results_to_csv_with_rollover io raw base idx mb hdr w).2 ≠ files w ->
  ∃ h rest,
    batch_lines raw = h :: rest
    ∧ path_exists (append_results_to_csv_with_rollover io raw base idx mb hdr w).2
                  (ws_filename (resolved base idx mb hdr w)) = true
    ∧ (ws_idx (append_results_to_csv_with_rollover io raw base idx mb hdr w).1
       = ws_idx (resolved base idx mb hdr w) ->
       ws_header (append_results_to_csv_with_rollover io raw base idx mb hdr w).1 = Some h).
Proof.
  intros Hch.
  destruct (lines_to_actually_write raw base idx mb hdr w) as [|l ls] eqn:Hl.
  { exfalso. apply Hch. by rewrite append_results_files, Hl. }
  destruct (decision_lines_from_batch raw base idx mb hdr w) as (h & rest & Hb & Hf & _).
  { by rewrite Hl. }
  exists h, rest. split; [done|]. split.
  - unfold path_exists. apply bool_decide_eq_true.
    rewrite append_results_files, Hl in *.
    destruct io; simpl in *; rewrite ?lookup_insert_eq; by eauto.
  - rewrite append_results_writes by (by rewrite Hl). rewrite Hf.
    unfold write_and_check. destruct io; simpl; try done.
    case_match; simpl; [lia | done].
Qed.

Lemma writer_step_same_file io raw base idx mb w h :
  Py.nonempty h = true ->
  path_exists w (output_filename_of base idx) = true ->
  ws_idx (resolved base idx mb (Some h) w) = idx ->
  (files (append_results_to_csv_with_rollover io raw base idx mb (Some h) w).2 ≠ files w ->
   head (batch_lines raw) = Some h)
  ∧ (ws_idx (append_results_to_csv_with_rollover io raw base idx mb (Some h) w).1 = idx ->
     ws_header (append_results_to_csv_with_rollover io raw base idx mb (Some h) w).1
     = Some h).
Proof.
  intros Hne Hex Hidx.
  assert (Hres : resolved base idx mb (Some h) w
                 = WriterState idx (Some h) (output_filename_of base idx)).
  { destruct (resolved_cases base idx mb (Some h) w) as [[_ Hr]|[_ Hr]]; [|done].
    rewrite Hr in Hidx. simpl in Hidx. lia. }
  assert (Hskip : lines_to_actually_write raw base idx mb (Some h) w = [] ->
                  final_headers_for_this_file raw base idx mb (Some h) w = Some h ->
                  (files (append_results_to_csv_with_rollover io raw base idx mb (Some h) w).2
                   ≠ files w -> head (batch_lines raw) = Some h)
                  ∧ (ws_idx (append_results_to_csv_with_rollover io raw base idx mb
                               (Some h) w).1 = idx ->
                     ws_header (append_results_to_csv_with_rollover io raw base idx mb
                                  (Some h) w).1 = Some h)).
  { intros Hl Hf. split.
    - intros Hch. exfalso. apply Hch. by rewrite append_results_files, Hl.
    - intros _. rewrite append_results_skips by done. simpl. done. }
  destruct (batch_lines raw) as [|h' rest] eqn:Hb.
  { apply Hskip.
    - unfold lines_to_actually_write. by rewrite decision_blank.
    - unfold final_headers_for_this_file. by rewrite decision_blank, Hres. }
  destruct (decide (h' = h)) as [->|Hd].
  - assert (Hdec : decision raw base idx mb (Some h) w = (rest, Some h, [])).
    { apply decision_same_header; [done| |]; by rewrite Hres. }
    split; [done|].
    destruct rest as [|d ds].
    + intros _. rewrite append_results_skips
        by (unfold lines_to_actually_write; by rewrite Hdec).
      simpl. unfold final_headers_for_this_file. by rewrite Hdec.
    + rewrite append_results_writes
        by (unfold lines_to_actually_write; by rewrite Hdec).
      unfold final_headers_for_this_file. rewrite Hdec, Hres. cbn [fst snd ws_idx].
      unfold write_and_check. destruct io; simpl; try done.
      case_match; simpl; [lia | done].
  - assert (Hdec : decision raw base idx mb (Some h) w
             = ([], Some h, [HeadersDoNotMatch (ws_filename (resolved base idx mb (Some h) w));
                             FileHeaders (Some h); BatchHeaders h'])).
    { apply (decision_mismatch raw base idx mb (Some h) w h' rest h Hb);
        rewrite ?Hres; try done.
      intros ->. done. }
    apply Hskip.
    + unfold lines_to_actually_write. by rewrite Hdec.
    + unfold final_headers_for_this_file. by rewrite Hdec.
Qed.

Lemma handle_response_header E base mb i raw st r :
  writer_call_for E base mb i raw st = Some r ->
  Py.truthy (ws_header r.1) = true ->
  current_headers (handle_response E base mb i raw st) = ws_header r.1.
Proof.
  unfold handle_response, writer_call_for.
  destruct (Py.nonempty raw && Py.nonempty (Py.strip raw)); simpl; [|done].
  destruct (0 <=? num_data_lines_of (processed_lines_of raw)); simpl; [|done].
  intros [= <-] Ht.
  destruct (append_results_to_csv_with_rollover _ _ _ _ _ _ _) as [r w'].
  simpl in *. destruct (0 <? _); [done|].
  destruct (bool_decide _ && bool_decide _); [|done].
  simpl. unfold adopt_header. by rewrite Ht.
Qed.

Lemma batch_step_header E vin_list base mb w n r :
  writer_call E vin_list base mb w n = Some r ->
  Py.truthy (ws_header r.1) = true ->
  current_headers (state_before E vin_list base mb w (S n)) = ws_header r.1.
Proof.
  rewrite state_before_succ. unfold writer_call, process_batch, state_at_response.
  cbv zeta. destruct (api E n _) as [raw| | |]; try done.
  apply handle_response_header.
Qed.

Lemma index_step E vin_list base mb w n :
  current_file_index (state_before E vin_list base mb w n)
  ≤ current_file_index (state_before E vin_list base mb w (S n)).
Proof.
  pose proof (batch_step_spec E vin_list base mb w n) as [_ Hstep]. cbv zeta in Hstep.
  destruct (writer_call E vin_list base mb w n) as [r|] eqn:Hcall.
  - destruct Hstep as [Hi _].
    destruct (writer_call_inv _ _ _ _ _ _ _ Hcall) as (raw & w0 & _ & Hr).
    pose proof (append_results_index (io E n) raw base
                  (current_file_index (state_before E vin_list base mb w n)) mb
                  (current_headers (state_before E vin_list base mb w n)) w0)
      as [Hres Hret].
    rewrite <- Hr in Hret. rewrite Hi. lia.
  - destruct Hstep as (Hi & _). rewrite Hi. lia.
Qed.

Lemma batch_changed_head E vin_list base mb w i f h :
  batch_changed E vin_list base mb w i f h -> Py.nonempty h = true.
Proof.
  intros (raw & r & _ & _ & Hh & _).
  destruct (batch_lines raw) as [|h0 rest] eqn:Hb; [done|].
  injection Hh as <-. by eapply batch_header_nonempty.
Qed.

Lemma writer_call_answer E vin_list base mb w n r :
  writer_call E vin_list base mb w n = Some r ->
  ∃ raw w0,
    answer E vin_list n = ApiOk raw
    ∧ files w0 = files (wld (state_before E vin_list base mb w n))
    ∧ r = append_results_to_csv_with_rollover (io E n) raw base
            (current_file_index (state_before E vin_list base mb w n)) mb
            (current_headers (state_before E vin_list base mb w n)) w0.
Proof.
  unfold writer_call, answer. destruct (api E n _) as [raw| | |]; try done.
  unfold writer_call_for. case_match; [|done]. intros [= <-].
  eexists raw, _. split; [done|]. split; [|reflexivity]. done.
Qed.

(** Once a batch has changed a file under header [h], the loop either has
    moved to a later index, or still holds [h] for that file. *)
Lemma changed_file_invariant E vin_list base mb w n i f h :
  (i < n)%nat ->
  batch_changed E vin_list base mb w i f h ->
  ∃ k, f = output_filename_of base k
       ∧ k ≤ current_file_index (state_before E vin_list base mb w n)
       ∧ (k = current_file_index (state_before E vin_list base mb w n) ->
          current_headers (state_before E vin_list base mb w n) = Some h
          ∧ path_exists (wld (state_before E vin_list base mb w n)) f = true).
Proof.
  intros Hi Hch. induction n as [|n IH]; [lia|].
  pose proof (batch_changed_head _ _ _ _ _ _ _ _ Hch) as Hne.
  pose proof (batch_step_spec E vin_list base mb w n) as [_ Hstep]. cbv zeta in Hstep.
  set (st := state_before E vin_list base mb w n) in *.
  destruct (decide (i = n)) as [->|Hin].
  - destruct Hch as (raw & r & Hans & Hcall & Hh & Hf & Hchg).
    rewrite Hcall in Hstep. destruct Hstep as [Hidx Hfiles].
    destruct (writer_call_answer _ _ _ _ _ _ _ Hcall) as (raw' & w0 & Hans' & Hw0 & Hr).
    rewrite Hans in Hans'. injection Hans' as <-.
    fold st in Hw0, Hr, Hchg. rewrite <- Hw0, Hr in Hchg.
    destruct (writer_step_changed _ _ _ _ _ _ _ Hchg) as (h0 & rest & Hb & Hex & Hhd).
    rewrite <- Hr in Hex, Hhd. rewrite Hb in Hh. injection Hh as ->.
    pose proof (append_results_index (io E n) raw base (current_file_index st) mb
                  (current_headers st) w0) as [_ Hret].
    rewrite <- Hr in Hret.
    exists (ws_idx (resolved base (current_file_index st) mb (current_headers st) w0)).
    split; [by rewrite <- Hf, Hr, append_results_filename, resolved_filename|].
    rewrite Hidx. split; [lia|]. intros Hk. symmetry in Hk. specialize (Hhd Hk).
    split.
    + rewrite (batch_step_header _ _ _ _ _ _ _ Hcall); [done|]. by rewrite Hhd.
    + rewrite <- Hf. unfold path_exists in *. rewrite Hfiles.
      assert (Hfn : ws_filename r.1
                    = ws_filename (resolved base (current_file_index st) mb
                                            (current_headers st) w0))
        by (rewrite Hr; apply append_results_filename).
      rewrite Hfn. exact Hex.
  - destruct IH as (k & Hfk & Hle & Hcur); [lia|].
    pose proof (index_step E vin_list base mb w n) as Hmono. fold st in Hmono.
    exists k. split; [done|]. split; [lia|]. intros Hk.
    assert (Hkn : k = current_file_index st) by lia.
    destruct (Hcur Hkn) as [Hhdr Hexists].
    destruct (writer_call E vin_list base mb w n) as [r|] eqn:Hcall.
    + destruct Hstep as [Hidx Hfiles].
      destruct (writer_call_answer _ _ _ _ _ _ _ Hcall) as (raw & w0 & _ & Hw0 & Hr).
      fold st in Hw0, Hr. rewrite Hhdr in Hr.
      pose proof (append_results_index (io E n) raw base (current_file_index st) mb
                    (Some h) w0) as [Hres Hret].
      rewrite <- Hr in Hret.
      assert (Hex0 : path_exists w0 (output_filename_of base (current_file_index st)) = true).
      { rewrite <- Hkn, <- Hfk. unfold path_exists in *. by rewrite Hw0. }
      destruct (writer_step_same_file (io E n) raw base (current_file_index st) mb w0 h
                  Hne Hex0) as [_ Hkeep]; [lia|].
      rewrite <- Hr in Hkeep.
      assert (Hh' : ws_header r.1 = Some h) by (apply Hkeep; lia).
      split.
      * rewrite (batch_step_header _ _ _ _ _ _ _ Hcall); [done|]. by rewrite Hh'.
      * unfold path_exists in *. rewrite Hfiles.
        apply bool_decide_eq_true in Hexists as [c Hc]. rewrite <- Hw0 in Hc.
        destruct (append_results_keeps (io E n) raw base (current_file_index st) mb
                    (Some h) w0 f c Hc) as (c' & Hc' & _).
        apply bool_decide_eq_true. rewrite Hr. by eexists.
    + destruct Hstep as (Hidx & Hhd & _ & Hfiles).
      rewrite Hhd. split; [done|]. unfold path_exists in *. by rewrite Hfiles.
Qed.

Lemma same_file_same_header E vin_list base mb w i j f h h' :
  batch_changed E vin_list base mb w i f h ->
  batch_changed E vin_list base mb w j f h' ->
  h = h'.
Proof.
  cut (∀ i j h h', (i < j)%nat ->
         batch_changed E vin_list base mb w i f h ->
         batch_changed E vin_list base mb w j f h' -> h = h').
  { intros Hlt Hi Hj. destruct (Nat.lt_total i j) as [Hij|[->|Hji]].
    - by eapply Hlt.
    - destruct Hi as (raw & _ & Ha & _ & Hh & _).
      destruct Hj as (raw' & _ & Ha' & _ & Hh' & _). congruence.
    - symmetry. by eapply Hlt. }
  clear i j h h'. intros i j h h' Hij Hi Hj.
  pose proof (batch_changed_head _ _ _ _ _ _ _ _ Hi) as Hne.
  destruct (changed_file_invariant E vin_list base mb w j i f h Hij Hi)
    as (k & Hfk & Hle & Hcur).
  destruct Hj as (raw & r & Hans & Hcall & Hh & Hf & Hchg).
  destruct (writer_call_answer _ _ _ _ _ _ _ Hcall) as (raw' & w0 & Hans' & Hw0 & Hr).
  rewrite Hans in Hans'. injection Hans' as <-.
  set (st := state_before E vin_list base mb w j) in *.
  pose proof (append_results_index (io E j) raw base (current_file_index st) mb
                (current_headers st) w0) as [Hres _].
  assert (Hk : ws_idx (resolved base (current_file_index st) mb (current_headers st) w0)
               = k).
  { apply (output_filename_of_inj base). rewrite <- resolved_filename, <- Hfk, <- Hf.
    by rewrite Hr, append_results_filename. }
  assert (Hkj : k = current_file_index st) by lia.
  destruct (Hcur Hkj) as [Hhdr Hexists].
  rewrite Hhdr in Hr, Hk.
  assert (Hex0 : path_exists w0 (output_filename_of base (current_file_index st)) = true).
  { rewrite <- Hkj, <- Hfk. unfold path_exists in *. by rewrite Hw0. }
  destruct (writer_step_same_file (io E j) raw base (current_file_index st) mb w0 h
              Hne Hex0) as [Hsame _]; [lia|].
  rewrite <- Hr, Hw0 in Hsame. specialize (Hsame Hchg). congruence.
Qed.

(** C2 (as stated, refuted): a file can hold data rows that came from a
    batch under another header than the one recorded for it.  A run starts
    with no recorded header (lines 193-195), and the writer then appends the
    whole batch to an existing file without comparing (lines 107-109).  Below,
    a first run creates [out.csv] under the header [Make,Model]; a second run
    appends a batch under [VIN] to it, prints no warning, and holds [VIN] as
    the header of the file. *)
Lemma C2_rows_under_two_headers_in_one_file :
  let nl := os_linesep in
  let E1 := Env (fun _ _ => ApiOk ("Make,Model" +:+ nl +:+ "Ford,T")) (fun _ => IoOk) in
  let E2 := Env (fun _ _ => ApiOk ("VIN" +:+ nl +:+ "1HG")) (fun _ => IoOk) in
  let r1 := decode_vins_in_batches E1 ["V1"] "out" 2 (World ∅ [] []) in
  let r2 := decode_vins_in_batches E2 ["V2"] "out" 2 r1.2 in
  files r1.2 = {["out.csv" := "Make,Model" +:+ nl +:+ "Ford,T" +:+ nl]}
  ∧ files r2.2
    = {["out.csv" := "Make,Model" +:+ nl +:+ "Ford,T" +:+ nl +:+ "VIN" +:+ nl +:+ "1HG" +:+ nl]}
  ∧ current_headers (state_before E2 ["V2"] "out" 2 r1.2 1) = Some "VIN"
  ∧ stdout r2.2 = [ProcessingBatch 1 1 1; ProcessingBatch 1 1 1].
Proof.
  cbv zeta. repeat match goal with |- _ ∧ _ => split end; vm_compute; reflexivity.
Qed.

(** C2 (amended): a batch whose header differs from the non-empty header
    recorded for an existing target file is dropped whole: the files are
    unchanged, the three warning lines naming the file, its header and the
    batch header are printed, and the returned index, header and filename are
    the ones the call was given.  Consequently, what a call adds to a file is
    text of its own batch, under the header then kept for the file, and all
    the batches of one run that change the same file have the same header.
    Rows that a file holds before the run are not compared. *)
Theorem C2_mismatched_batch_is_dropped :
  (∀ io raw base idx mb hdr w h rest e,
     batch_lines raw = h :: rest ->
     let s := resolved base idx mb hdr w in
     path_exists w (ws_filename s) = true ->
     ws_header s = Some e -> e ≠ "" -> h ≠ e ->
     let r := append_results_to_csv_with_rollover io raw base idx mb hdr w in
     files r.2 = files w
     ∧ stdout r.2 = stdout w ++ [HeadersDoNotMatch (ws_filename s);
                                 FileHeaders (Some e); BatchHeaders h]
     ∧ r.1 = s
     ∧ r.1 = WriterState idx hdr (output_filename_of base idx))
  ∧ (∀ io raw base idx mb hdr w,
       let r := append_results_to_csv_with_rollover io raw base idx mb hdr w in
       files r.2 ≠ files w ->
       ∃ h rest lines n,
         batch_lines raw = h :: rest
         ∧ final_headers_for_this_file raw base idx mb hdr w = Some h
         ∧ (lines = h :: rest ∨ lines = rest)
         ∧ files r.2
           = <[ws_filename r.1
               := default "" (files w !! ws_filename r.1)
                  +:+ Py.prefix n (written_text lines)]> (files w))
  ∧ (∀ E vin_list base mb w i j f h h',
       batch_changed E vin_list base mb w i f h ->
       batch_changed E vin_list base mb w j f h' ->
       h = h').
Proof.
  split; [|split].
  - intros io raw base idx mb hdr w h rest e Hb s Hex Hh Hne Hd r.
    destruct (resolved_header_some _ _ _ _ _ _ Hh) as (_ & -> & Hi).
    pose proof (decision_mismatch _ _ _ _ _ _ _ _ _ Hb Hex Hh Hne Hd) as Hdec.
    assert (Hl : lines_to_actually_write raw base idx mb (Some e) w = []).
    { unfold lines_to_actually_write. by rewrite Hdec. }
    unfold r. rewrite append_results_skips by done.
    unfold final_headers_for_this_file. rewrite Hdec, Hi. simpl.
    fold s. assert (Hs : s = WriterState idx (Some e) (output_filename_of base idx)).
    { unfold s, resolved. by rewrite Hi. }
    rewrite Hs. done.
  - intros io raw base idx mb hdr w r Hch.
    unfold r in *. rewrite append_results_filename.
    rewrite append_results_files in *.
    destruct (lines_to_actually_write raw base idx mb hdr w) as [|l ls] eqn:Hl; [done|].
    destruct (decision_lines_from_batch raw base idx mb hdr w) as (h & rest & Hb & Hf & Hw).
    { by rewrite Hl. }
    exists h, rest, (l :: ls).
    assert (Hpre : ∀ s : string, Py.prefix (String.length s) s = s).
    { induction s as [|c s IH]; simpl; [done | by rewrite IH]. }
    destruct io; simpl in *.
    + exists (String.length (written_text (l :: ls))). rewrite Hpre, <- Hl. by auto.
    + done.
    + exists n. rewrite <- Hl. by auto.
    + exists (String.length (written_text (l :: ls))). rewrite Hpre, <- Hl. by auto.
  - apply same_file_same_header.
Qed.

Lemma C2_mismatched_batch_is_dropped_witness :
  let nl := os_linesep in
  let w := World {["out.csv" := "VIN,Make" +:+ nl]} [] [] in
  let r := append_results_to_csv_with_rollover IoOk ("VIN,Model" +:+ nl +:+ "1,X")
             "out" 0 2 (Some "VIN,Make") w in
  let E := Env (fun i _ => if bool_decide (i = 0%nat) then ApiOk ("VIN" +:+ nl +:+ "1,A")
                           else ApiOk ("VIN" +:+ nl +:+ "2,B"))
               (fun _ => IoOk) in
  let vin_list := replicate 51 "V" in
  (files r.2 = files w
   ∧ stdout r.2 = [HeadersDoNotMatch "out.csv"; FileHeaders (Some "VIN,Make");
                   BatchHeaders "VIN,Model"]
   ∧ r.1 = WriterState 0 (Some "VIN,Make") "out.csv")
  ∧ batch_changed E vin_list "out" 2 (World ∅ [] []) 0 "out.csv" "VIN"
  ∧ batch_changed E vin_list "out" 2 (World ∅ [] []) 1 "out.csv" "VIN"
  ∧ "VIN" = "VIN".
Proof.
  cbv zeta.
  pose proof (proj1 C2_mismatched_batch_is_dropped IoOk
                ("VIN,Model" +:+ os_linesep +:+ "1,X") "out" 0 2 (Some "VIN,Make")
                (World {["out.csv" := "VIN,Make" +:+ os_linesep]} [] [])
                "VIN,Model" ["1,X"] "VIN,Make") as H.
  destruct H as (H1 & H2 & _ & H4);
    [reflexivity | reflexivity | reflexivity | discriminate | discriminate |].
  split; [split; [exact H1|]; split; [exact H2 | exact H4]|].
  assert (Hc : ∀ i, (i < 2)%nat ->
            batch_changed
              (Env (fun i _ => if bool_decide (i = 0%nat)
                               then ApiOk ("VIN" +:+ os_linesep +:+ "1,A")
                               else ApiOk ("VIN" +:+ os_linesep +:+ "2,B"))
                   (fun _ => IoOk))
              (replicate 51 "V") "out" 2 (World ∅ [] []) i "out.csv" "VIN").
  { intros i Hi. unfold batch_changed.
    destruct i as [|[|i]]; [| |lia].
    - eexists _, _. split; [reflexivity|]. split; [vm_compute; reflexivity|].
      split; [reflexivity|]. split; [reflexivity|].
      intros Heq. apply (f_equal (fun m => m !! "out.csv")) in Heq.
      vm_compute in Heq. discriminate.
    - eexists _, _. split; [reflexivity|]. split; [vm_compute; reflexivity|].
      split; [reflexivity|]. split; [reflexivity|].
      intros Heq. apply (f_equal (fun m => m !! "out.csv")) in Heq.
      vm_compute in Heq. discriminate. }
  split; [apply Hc; lia|]. split; [apply Hc; lia|].
  exact (proj2 (proj2 C2_mismatched_batch_is_dropped) _ _ _ _ _ _ _ _ _ _
           (Hc 0%nat ltac:(lia)) (Hc 1%nat ltac:(lia))).
Defined.
